(** * Librarium-Automatum: the CrewAI research skill of AnythingLLM

    A shallow embedding of [src/crewai/anythingllm-skill/handler.js], the one
    unit of the repository with a request/response/error contract.  The
    handler is an [async] JavaScript function: it reads two configuration
    values off [this.runtimeArgs], reports progress through [this.introspect],
    posts one request with [fetch] and turns the response, or the failure,
    into the value it returns.

    The embedding keeps the shape of the source: JavaScript values are an
    inductive type, an abrupt completion ([throw], a rejected promise that is
    awaited) is the [Throw] constructor of [Completion], the effects the
    handler has on the outside (calls of [this.introspect], calls of [fetch])
    are collected, in order, in a trace, and [try]/[catch] is a combinator of
    the small monad that carries both. *)

From Stdlib Require Import String Ascii List NArith ZArith Bool Lia DecimalString.
Import ListNotations.
Local Open Scope string_scope.
Set Warnings "-register-all".

(** ** JavaScript values *)

(** A JavaScript number, seen through the one operation the handler applies
    to numbers, the conversion to a string.  [NInt z] is an integer-valued
    double in the safe range (it prints as its decimal digits); [NDouble repr]
    is any other double together with the text [Number::toString] gives it. *)
Inductive Number : Type :=
| NInt (z : Z)
| NDouble (repr : string).

(** The values [JSON.parse] and property access can produce: the JSON values
    and [undefined].  An object lists its own properties in insertion order. *)
Inductive JSValue : Type :=
| JUndefined
| JNull
| JBool (b : bool)
| JNumber (n : Number)
| JString (s : string)
| JArray (elems : list JSValue)
| JObject (props : list (string * JSValue)).

(** A thrown [Error] object: the handler reads its [message] only. *)
Record Error : Type := mkError { name : string; message : string }.

(** The completion of an evaluation: a value, or an exception. Awaiting a
    promise gives [Normal] when it is fulfilled and [Throw] when it is
    rejected. *)
Inductive Completion (A : Type) : Type :=
| Normal (a : A)
| Throw (e : Error).
Arguments Normal {A} a.
Arguments Throw {A} e.

(** The faults of the language itself that the handler's expressions can run
    into; each is raised as a [TypeError] whose text the engine chooses. *)
Inductive Fault : Type :=
| ReadOfNullish (base : JSValue) (prop : string)
| NotAFunction (prop : string)
| NoPrimitiveValue
| DestructureOfNullish (base : JSValue) (prop : string).

(** What the handler uses of the JavaScript runtime it runs on. *)
Record Runtime : Type := {
  JSON_parse : string -> Completion JSValue;
  JSON_stringify : JSValue -> string;
  TypeError_message : Fault -> string
}.

Definition dquote : string := String "034"%char EmptyString.

Definition N_toString (n : N) : string := NilZero.string_of_uint (N.to_uint n).

Definition Number_toString (n : Number) : string :=
  match n with
  | NInt z => NilZero.string_of_int (Z.to_int z)
  | NDouble repr => repr
  end.

(** Own property lookup in the property list of an object. *)
Fixpoint lookup (k : string) (props : list (string * JSValue)) : option JSValue :=
  match props with
  | [] => None
  | (k', v) :: rest => if String.eqb k k' then Some v else lookup k rest
  end.

Definition own_property (v : JSValue) (p : string) : option JSValue :=
  match v with
  | JObject props => lookup p props
  | _ => None
  end.

(** [s] occurs in [t]. *)
Definition Contains (s t : string) : Prop :=
  exists pre post, t = pre ++ s ++ post.

Section Language.

Variable rt : Runtime.

Definition TypeError (f : Fault) : Error :=
  mkError "TypeError" (TypeError_message rt f).

(** [ToString], as a template literal applies it to a substitution.  An
    array goes through [Array.prototype.toString], that is [join(",")]; an
    object built by [JSON.parse] inherits [Object.prototype.toString]
    unless it has an own property of that name, whose value is never
    callable: then neither [toString] nor [valueOf] yields a primitive and
    the conversion throws. *)
Fixpoint ToString (v : JSValue) : Completion string :=
  match v with
  | JUndefined => Normal "undefined"
  | JNull => Normal "null"
  | JBool b => Normal (if b then "true" else "false")
  | JNumber n => Normal (Number_toString n)
  | JString s => Normal s
  | JArray elems =>
      (fix join_comma (l : list JSValue) : Completion string :=
         match l with
         | [] => Normal EmptyString
         | x :: rest =>
             match
               match x with
               | JUndefined | JNull => Normal EmptyString
               | _ => ToString x
               end
             with
             | Throw e => Throw e
             | Normal s =>
                 match rest with
                 | [] => Normal s
                 | _ :: _ =>
                     match join_comma rest with
                     | Throw e => Throw e
                     | Normal r => Normal (s ++ "," ++ r)
                     end
                 end
             end
         end) elems
  | JObject props =>
      match lookup "toString" props with
      | Some _ => Throw (TypeError NoPrimitiveValue)
      | None => Normal "[object Object]"
      end
  end.

(** The text [Array.prototype.join] gives one element. *)
Definition element_string (x : JSValue) : Completion string :=
  match x with
  | JUndefined | JNull => Normal EmptyString
  | _ => ToString x
  end.

(** [Array.prototype.join]: the elements' texts, left to right, with [sep]
    between them; the first conversion that throws ends it. *)
Fixpoint Array_join (sep : string) (l : list JSValue) : Completion string :=
  match l with
  | [] => Normal EmptyString
  | x :: rest =>
      match element_string x with
      | Throw e => Throw e
      | Normal s =>
          match rest with
          | [] => Normal s
          | _ :: _ =>
              match Array_join sep rest with
              | Throw e => Throw e
              | Normal r => Normal (s ++ sep ++ r)
              end
          end
      end
  end.

(** [v.p], for a property name [p] that no built-in prototype defines (the
    handler reads [duration_seconds], [agents_used] and [result]). *)
Definition Get (v : JSValue) (p : string) : Completion JSValue :=
  match v with
  | JUndefined | JNull => Throw (TypeError (ReadOfNullish v p))
  | JObject props =>
      Normal (match lookup p props with Some x => x | None => JUndefined end)
  | _ => Normal JUndefined
  end.

(** [v.join(sep)]: only an array has a callable [join]. *)
Definition call_join (v : JSValue) (sep : string) : Completion string :=
  match v with
  | JUndefined | JNull => Throw (TypeError (ReadOfNullish v "join"))
  | JArray elems => Array_join sep elems
  | _ => Throw (TypeError (NotAFunction "join"))
  end.

End Language.

(** ** The handler's surroundings *)

(** The request [fetch] is called with (handler.js, lines 15-20). *)
Record Request : Type := {
  url : string;
  method : string;
  headers : list (string * string);
  body : string;
  signal_timeout_ms : N
}.

(** What the handler reads of a [Response]: the status and the outcome of
    consuming the body as text, which is rejected when the connection drops
    or the request's signal aborts while the body is read. *)
Record Response : Type := {
  status : N;
  body_text : Completion string
}.

(** [response.ok]: the status is in the range 200 to 299. *)
Definition ok (r : Response) : bool :=
  ((200 <=? status r) && (status r <=? 299))%N.

(** The configuration the host passes as [this.runtimeArgs]: a property that
    is not set is [None]. *)
Record RuntimeArgs : Type := {
  CREWAI_API_URL : option string;
  RESEARCH_DEPTH : option string
}.

(** The [this] of the handler.  [runtimeArgs] is [None] when the host sets
    none ([undefined] or [null]).  [introspect] is the behaviour of the
    injected callback on a message: [None] when it returns, [Some e] when it
    throws [e]. *)
Record This : Type := {
  runtimeArgs : option RuntimeArgs;
  introspect : string -> option Error
}.

(** What an invocation does to the outside, in order. *)
Inductive Event : Type :=
| Introspect (msg : string)
| Fetch (req : Request).

(** ** Computations: a completion and the trace of effects so far *)

Definition M (A : Type) : Type := (Completion A * list Event)%type.

Definition ret {A} (a : A) : M A := (Normal a, []).

Definition lift {A} (c : Completion A) : M A := (c, []).

Definition bind {A B} (m : M A) (f : A -> M B) : M B :=
  match m with
  | (Normal a, t) => let (r, t') := f a in (r, (t ++ t')%list)
  | (Throw e, t) => (Throw e, t)
  end.

(** [try { m } catch (error) { h error }] *)
Definition try_catch {A} (m : M A) (h : Error -> M A) : M A :=
  match m with
  | (Normal a, t) => (Normal a, t)
  | (Throw e, t) => let (r, t') := h e in (r, (t ++ t')%list)
  end.

Declare Scope js_scope.
Delimit Scope js_scope with js.
Notation "x <- m ;; k" := (bind m (fun x => k))
  (at level 61, m at next level, right associativity) : js_scope.
Notation "m ;; k" := (bind m (fun _ => k))
  (at level 61, right associativity) : js_scope.

(** The requests of a trace, in order. *)
Fixpoint requests (t : list Event) : list Request :=
  match t with
  | [] => []
  | Fetch req :: rest => req :: requests rest
  | Introspect _ :: rest => requests rest
  end.

(** The progress notifications of a trace, in order. *)
Fixpoint notifications (t : list Event) : list string :=
  match t with
  | [] => []
  | Introspect msg :: rest => msg :: notifications rest
  | Fetch _ :: rest => notifications rest
  end.

(** ** handler.js *)

(** [a || b] on a configuration value: [undefined] and the empty string are
    falsy. *)
Definition or_else (a : option string) (b : string) : string :=
  match a with
  | Some EmptyString => b
  | Some s => s
  | None => b
  end.

(** [this.runtimeArgs?.CREWAI_API_URL] and [this.runtimeArgs?.RESEARCH_DEPTH] *)
Definition optional_chain {A} (o : option RuntimeArgs) (p : RuntimeArgs -> option A) : option A :=
  match o with
  | Some args => p args
  | None => None
  end.

(** Lines 6-8. *)
Definition baseUrl (this : This) : string :=
  or_else (optional_chain (runtimeArgs this) CREWAI_API_URL) "http://crewai-service:8000".

Definition depth (this : This) : string :=
  or_else (optional_chain (runtimeArgs this) RESEARCH_DEPTH) "medium".

(** The template literals of lines 12, 24, 25, 31 and 36-37. *)
Definition msg_sending (topic depth : string) : string :=
  "🔬 Sending research request to CrewAI crew: " ++ dquote ++ topic ++ dquote
    ++ " (depth: " ++ depth ++ ")".

Definition msg_returned_error (status : N) : string :=
  "❌ CrewAI returned error: " ++ N_toString status.

Definition msg_research_failed (status : N) (errBody : string) : string :=
  "CrewAI research failed (HTTP " ++ N_toString status ++ "): " ++ errBody.

Definition msg_complete (duration agents : string) : string :=
  "✅ Research complete! Took " ++ duration ++ "s using agents: " ++ agents.

Definition msg_failed_to_reach (message : string) : string :=
  "❌ Failed to reach CrewAI service: " ++ message.

Definition remediation_hint : string :=
  "Make sure the crewai-service container is running and on the same Docker network.".

Definition msg_error_contacting (baseUrl message : string) : string :=
  "Error contacting CrewAI service at " ++ baseUrl ++ ": " ++ message ++ ". "
    ++ remediation_hint.

(** The three outcomes of the specification's data model, and the value the
    handler returns for each (lines 34, 25 and 37). *)
Inductive ToolOutcome : Type :=
| Success (result : JSValue)
| RemoteError (status : N) (body : string)
| TransportError (message : string).

Definition returned (baseUrl : string) (o : ToolOutcome) : JSValue :=
  match o with
  | Success result => result
  | RemoteError status body => JString (msg_research_failed status body)
  | TransportError message => JString (msg_error_contacting baseUrl message)
  end.

(** The injected callback returns on every message. *)
Definition never_throws (this : This) : Prop :=
  forall msg, introspect this msg = None.

(** The value of [data.p] when [data] is not [undefined] or [null]. *)
Definition field (data : JSValue) (p : string) : JSValue :=
  match own_property data p with
  | Some x => x
  | None => JUndefined
  end.

Definition and_then {A B} (c : Completion A) (k : A -> Completion B) : Completion B :=
  match c with
  | Normal a => k a
  | Throw e => Throw e
  end.

Section Handler.

Variable rt : Runtime.

(** The network as the handler meets it: what awaiting [fetch(request)]
    gives, a response or the rejection of a failed or timed out request. *)
Variable fetch : Request -> Completion Response.

Local Open Scope js_scope.

(** [this.introspect(msg)] *)
Definition call_introspect (this : This) (msg : string) : M unit :=
  match introspect this msg with
  | None => (Normal tt, [Introspect msg])
  | Some e => (Throw e, [Introspect msg])
  end.

(** [await fetch(url, init)] *)
Definition await_fetch (req : Request) : M Response :=
  (fetch req, [Fetch req]).

(** [await response.text()] *)
Definition text (r : Response) : M string := lift (body_text r).

(** [await response.json()]: the body is read, then parsed. *)
Definition json (r : Response) : M JSValue :=
  t <- lift (body_text r) ;; lift (JSON_parse rt t).

(** The request of lines 15-20. *)
Definition research_request (baseUrl topic depth : string) : Request :=
  {| url := baseUrl ++ "/research";
     method := "POST";
     headers := [("Content-Type", "application/json")];
     body := JSON_stringify rt (JObject [("topic", JString topic); ("depth", JString depth)]);
     signal_timeout_ms := 300000 |}.

(** [handler: async function ({ topic })], lines 5-39.  The host calls it
    with the arguments of the tool call, whose [topic] is a string, and with
    its own object as [this]; each [await] is the completion of the promise
    it waits for. *)
Definition handler (this : This) (topic : string) : M JSValue :=
  let baseUrl := baseUrl this in
  let depth := depth this in
  try_catch
    (call_introspect this (msg_sending topic depth) ;;
     response <- await_fetch (research_request baseUrl topic depth) ;;
     if negb (ok response) then
       errBody <- text response ;;
       call_introspect this (msg_returned_error (status response)) ;;
       ret (JString (msg_research_failed (status response) errBody))
     else
       data <- json response ;;
       duration_seconds <- lift (Get rt data "duration_seconds") ;;
       duration <- lift (ToString rt duration_seconds) ;;
       agents_used <- lift (Get rt data "agents_used") ;;
       agents <- lift (call_join rt agents_used ", ") ;;
       call_introspect this (msg_complete duration agents) ;;
       lift (Get rt data "result"))
    (fun error =>
       call_introspect this (msg_failed_to_reach (message error)) ;;
       ret (JString (msg_error_contacting baseUrl (message error)))).

(** Lines 22-34 without their effects, for a callback that returns: from
    what awaiting [fetch] gave to the notification the [try] block ends
    with and the value it returns, or to the exception that leaves it. *)
Definition respond (settled : Completion Response) : Completion (string * JSValue) :=
  and_then settled (fun response =>
  if negb (ok response) then
    and_then (body_text response) (fun errBody =>
    Normal (msg_returned_error (status response),
            JString (msg_research_failed (status response) errBody)))
  else
    and_then (body_text response) (fun t =>
    and_then (JSON_parse rt t) (fun data =>
    and_then (Get rt data "duration_seconds") (fun duration_seconds =>
    and_then (ToString rt duration_seconds) (fun duration =>
    and_then (Get rt data "agents_used") (fun agents_used =>
    and_then (call_join rt agents_used ", ") (fun agents =>
    and_then (Get rt data "result") (fun result =>
    Normal (msg_complete duration agents, result))))))))).

(** The value an invocation returns, or the exception it ends with. *)
Definition outcome (this : This) (topic : string) : Completion JSValue :=
  fst (handler this topic).

(** The effects of an invocation. *)
Definition trace (this : This) (topic : string) : list Event :=
  snd (handler this topic).

(** The parameter pattern [{ topic }] of line 5, which is bound before the
    [try] of line 10 is entered: [undefined] and [null] cannot be
    destructured; of every other argument the property [topic] is read,
    [undefined] when there is none. *)
Definition destructure_topic (argument : JSValue) : Completion JSValue :=
  match argument with
  | JUndefined | JNull => Throw (TypeError rt (DestructureOfNullish argument "topic"))
  | _ => Normal (field argument "topic")
  end.

(** The request of lines 15-20 for a [topic] of any value. *)
Definition research_request_of (baseUrl : string) (topic : JSValue) (depth : string)
  : Request :=
  {| url := baseUrl ++ "/research";
     method := "POST";
     headers := [("Content-Type", "application/json")];
     body := JSON_stringify rt (JObject [("topic", topic); ("depth", JString depth)]);
     signal_timeout_ms := 300000 |}.

(** Lines 6-38 for a [topic] of any value: the template of line 12 converts
    it to a string, inside the [try]. *)
Definition handler_of (this : This) (topic : JSValue) : M JSValue :=
  let baseUrl := baseUrl this in
  let depth := depth this in
  try_catch
    (shown <- lift (ToString rt topic) ;;
     call_introspect this (msg_sending shown depth) ;;
     response <- await_fetch (research_request_of baseUrl topic depth) ;;
     if negb (ok response) then
       errBody <- text response ;;
       call_introspect this (msg_returned_error (status response)) ;;
       ret (JString (msg_research_failed (status response) errBody))
     else
       data <- json response ;;
       duration_seconds <- lift (Get rt data "duration_seconds") ;;
       duration <- lift (ToString rt duration_seconds) ;;
       agents_used <- lift (Get rt data "agents_used") ;;
       agents <- lift (call_join rt agents_used ", ") ;;
       call_introspect this (msg_complete duration agents) ;;
       lift (Get rt data "result"))
    (fun error =>
       call_introspect this (msg_failed_to_reach (message error)) ;;
       ret (JString (msg_error_contacting baseUrl (message error)))).

(** A call [handler.call(this, argument)], lines 5-39: the parameter is
    bound, then the body runs.  A call without an argument has the argument
    [undefined]. *)
Definition invoke (this : This) (argument : JSValue) : M JSValue :=
  topic <- lift (destructure_topic argument) ;; handler_of this topic.

End Handler.

(** ** A runtime to run the handler on

    The universal statements below hold for every [Runtime].  Concrete runs
    need one: this module gives [JSON.parse] on the fragment of JSON without
    fractions, exponents and [\u] escapes (a text outside the fragment is
    rejected here), [JSON.stringify] on the values of that fragment, and
    fault texts in the style of V8. *)
Module Reference.

(** What a request that ran into its [AbortSignal.timeout] is rejected with. *)
Definition timeout_error : Error :=
  mkError "TimeoutError" "The operation was aborted due to timeout".

(** The text of a [SyntaxError] describes the offending token and differs
    between engines; the reference runtime uses this one for every text it
    rejects. *)
Definition syntax_error : Error := mkError "SyntaxError" "Unexpected token in JSON".

Definition is_ws (c : ascii) : bool :=
  let n := N_of_ascii c in
  ((n =? 32) || (n =? 9) || (n =? 10) || (n =? 13))%N.

Fixpoint skip_ws (s : string) : string :=
  match s with
  | String c r => if is_ws c then skip_ws r else s
  | EmptyString => s
  end.

Definition digit_of (c : ascii) : option Z :=
  let n := N_of_ascii c in
  if ((48 <=? n) && (n <=? 57))%N then Some (Z.of_N (n - 48)) else None.

Fixpoint digits (acc : Z) (s : string) : Z * string :=
  match s with
  | String c r =>
      match digit_of c with
      | Some d => digits (10 * acc + d) r
      | None => (acc, s)
      end
  | EmptyString => (acc, s)
  end.

(** After the digits of an integer: a fraction or an exponent is outside the
    fragment. *)
Definition integer_ends (s : string) : bool :=
  match s with
  | String c _ =>
      negb (Ascii.eqb c "."%char || Ascii.eqb c "e"%char || Ascii.eqb c "E"%char)
  | EmptyString => true
  end.

(** [int] of the JSON grammar: [0], or a digit from 1 to 9 and more digits. *)
Definition natural (s : string) : option (Z * string) :=
  match s with
  | String c r =>
      match digit_of c with
      | Some 0%Z =>
          match r with
          | String c' _ =>
              match digit_of c' with
              | Some _ => None
              | None => if integer_ends r then Some (0%Z, r) else None
              end
          | EmptyString => Some (0%Z, r)
          end
      | Some d => let (z, r') := digits d r in
                  if integer_ends r' then Some (z, r') else None
      | None => None
      end
  | EmptyString => None
  end.

Definition unescape (c : ascii) : option ascii :=
  if Ascii.eqb c "034"%char then Some "034"%char
  else if Ascii.eqb c "\"%char then Some "\"%char
  else if Ascii.eqb c "/"%char then Some "/"%char
  else if Ascii.eqb c "b"%char then Some "008"%char
  else if Ascii.eqb c "f"%char then Some "012"%char
  else if Ascii.eqb c "n"%char then Some "010"%char
  else if Ascii.eqb c "r"%char then Some "013"%char
  else if Ascii.eqb c "t"%char then Some "009"%char
  else None.

(** The characters of a string literal after its opening quote, and the text
    after its closing quote. *)
Fixpoint string_chars (s : string) : option (string * string) :=
  match s with
  | EmptyString => None
  | String c r =>
      if Ascii.eqb c "034"%char then Some (EmptyString, r)
      else if Ascii.eqb c "\"%char then
        match r with
        | String e r' =>
            match unescape e, string_chars r' with
            | Some c', Some (cs, rest) => Some (String c' cs, rest)
            | _, _ => None
            end
        | EmptyString => None
        end
      else if (N_of_ascii c <? 32)%N then None
      else
        match string_chars r with
        | Some (cs, rest) => Some (String c cs, rest)
        | None => None
        end
  end.

Fixpoint strip_prefix (p s : string) : option string :=
  match p, s with
  | EmptyString, _ => Some s
  | String a p', String b s' => if Ascii.eqb a b then strip_prefix p' s' else None
  | String _ _, EmptyString => None
  end.

(** [CreateDataProperty]: a key that is already there keeps its place and
    takes the new value. *)
Fixpoint define (k : string) (v : JSValue) (props : list (string * JSValue)) :=
  match props with
  | [] => [(k, v)]
  | (k', v') :: rest =>
      if String.eqb k k' then (k', v) :: rest else (k', v') :: define k v rest
  end.

Definition scalar (s : string) : option (JSValue * string) :=
  match strip_prefix "null" s, strip_prefix "true" s, strip_prefix "false" s with
  | Some r, _, _ => Some (JNull, r)
  | _, Some r, _ => Some (JBool true, r)
  | _, _, Some r => Some (JBool false, r)
  | None, None, None =>
      match s with
      | String c r =>
          if Ascii.eqb c "034"%char then
            match string_chars r with
            | Some (cs, rest) => Some (JString cs, rest)
            | None => None
            end
          else if Ascii.eqb c "-"%char then
            match natural r with
            | Some (z, rest) => Some (JNumber (NInt (- z)), rest)
            | None => None
            end
          else
            match natural s with
            | Some (z, rest) => Some (JNumber (NInt z), rest)
            | None => None
            end
      | EmptyString => None
      end
  end.

Fixpoint value (fuel : nat) (s : string) : option (JSValue * string) :=
  match fuel with
  | O => None
  | S fuel' =>
      match skip_ws s with
      | String c r =>
          if Ascii.eqb c "["%char then
            match skip_ws r with
            | String c' r' =>
                if Ascii.eqb c' "]"%char then Some (JArray [], r')
                else
                  match elements fuel' r with
                  | Some (vs, rest) => Some (JArray vs, rest)
                  | None => None
                  end
            | EmptyString => None
            end
          else if Ascii.eqb c "{"%char then
            match skip_ws r with
            | String c' r' =>
                if Ascii.eqb c' "}"%char then Some (JObject [], r')
                else
                  match members fuel' [] r with
                  | Some (ps, rest) => Some (JObject ps, rest)
                  | None => None
                  end
            | EmptyString => None
            end
          else scalar (String c r)
      | EmptyString => None
      end
  end
with elements (fuel : nat) (s : string) : option (list JSValue * string) :=
  match fuel with
  | O => None
  | S fuel' =>
      match value fuel' s with
      | Some (v, r) =>
          match skip_ws r with
          | String c r' =>
              if Ascii.eqb c ","%char then
                match elements fuel' r' with
                | Some (vs, rest) => Some (v :: vs, rest)
                | None => None
                end
              else if Ascii.eqb c "]"%char then Some ([v], r')
              else None
          | EmptyString => None
          end
      | None => None
      end
  end
with members (fuel : nat) (acc : list (string * JSValue)) (s : string)
  : option (list (string * JSValue) * string) :=
  match fuel with
  | O => None
  | S fuel' =>
      match skip_ws s with
      | String q r =>
          if Ascii.eqb q "034"%char then
            match string_chars r with
            | Some (k, r1) =>
                match skip_ws r1 with
                | String c r2 =>
                    if Ascii.eqb c ":"%char then
                      match value fuel' r2 with
                      | Some (v, r3) =>
                          match skip_ws r3 with
                          | String c' r4 =>
                              if Ascii.eqb c' ","%char then members fuel' (define k v acc) r4
                              else if Ascii.eqb c' "}"%char then Some (define k v acc, r4)
                              else None
                          | EmptyString => None
                          end
                      | None => None
                      end
                    else None
                | EmptyString => None
                end
            | None => None
            end
          else None
      | EmptyString => None
      end
  end.

Definition parse (s : string) : Completion JSValue :=
  match value (2 * String.length s + 2) s with
  | Some (v, r) =>
      match skip_ws r with
      | EmptyString => Normal v
      | String _ _ => Throw syntax_error
      end
  | None => Throw syntax_error
  end.

Definition hex_digit (n : N) : ascii :=
  ascii_of_N (if (n <? 10)%N then 48 + n else 87 + n).

(** [QuoteJSONString], one character at a time. *)
Definition quote_char (c : ascii) : string :=
  let n := N_of_ascii c in
  if Ascii.eqb c "034"%char then String "\"%char (String "034"%char EmptyString)
  else if Ascii.eqb c "\"%char then "\\"
  else if (n =? 8)%N then "\b"
  else if (n =? 12)%N then "\f"
  else if (n =? 10)%N then "\n"
  else if (n =? 13)%N then "\r"
  else if (n =? 9)%N then "\t"
  else if (n <? 32)%N then
    "\u00" ++ String (hex_digit (n / 16)) (String (hex_digit (n mod 16)) EmptyString)
  else String c EmptyString.

Fixpoint quote_chars (s : string) : string :=
  match s with
  | EmptyString => EmptyString
  | String c r => quote_char c ++ quote_chars r
  end.

Definition quote (s : string) : string := dquote ++ quote_chars s ++ dquote.

Fixpoint stringify (v : JSValue) : string :=
  match v with
  | JUndefined => "undefined"
  | JNull => "null"
  | JBool b => if b then "true" else "false"
  | JNumber n => Number_toString n
  | JString s => quote s
  | JArray elems =>
      "[" ++
      (fix items (l : list JSValue) : string :=
         match l with
         | [] => EmptyString
         | x :: rest =>
             let s := match x with JUndefined => "null" | _ => stringify x end in
             match rest with
             | [] => s
             | _ :: _ => s ++ "," ++ items rest
             end
         end) elems
      ++ "]"
  | JObject props =>
      "{" ++
      (fix fields (first : bool) (l : list (string * JSValue)) : string :=
         match l with
         | [] => EmptyString
         | (k, x) :: rest =>
             match x with
             | JUndefined => fields first rest
             | _ =>
                 (if first then EmptyString else ",") ++ quote k ++ ":" ++ stringify x
                   ++ fields false rest
             end
         end) true props
      ++ "}"
  end.

Definition fault_text (f : Fault) : string :=
  match f with
  | ReadOfNullish base prop =>
      "Cannot read properties of "
        ++ match base with JNull => "null" | _ => "undefined" end
        ++ " (reading '" ++ prop ++ "')"
  | NotAFunction prop => prop ++ " is not a function"
  | NoPrimitiveValue => "Cannot convert object to primitive value"
  | DestructureOfNullish base prop =>
      let what := match base with JNull => "null" | _ => "undefined" end in
      "Cannot destructure property '" ++ prop ++ "' of '" ++ what ++ "' as it is "
        ++ what ++ "."
  end.

Definition runtime : Runtime :=
  {| JSON_parse := parse; JSON_stringify := stringify; TypeError_message := fault_text |}.

(** Hosts and networks for concrete runs. *)
Definition quiet (args : option RuntimeArgs) : This :=
  {| runtimeArgs := args; introspect := fun _ => None |}.

Definition responds (status : N) (body : string) : Request -> Completion Response :=
  fun _ => Normal {| status := status; body_text := Normal body |}.

Definition unreachable : Request -> Completion Response :=
  fun _ => Throw (mkError "TypeError" "fetch failed").

Definition times_out : Request -> Completion Response :=
  fun _ => Throw timeout_error.

End Reference.

(** The success body of the specification's example and the value it parses
    to. *)
Definition example_body : string :=
  "{" ++ dquote ++ "result" ++ dquote ++ ":" ++ dquote ++ "ok" ++ dquote ++ ","
    ++ dquote ++ "duration_seconds" ++ dquote ++ ":12,"
    ++ dquote ++ "agents_used" ++ dquote ++ ":["
    ++ dquote ++ "a" ++ dquote ++ "," ++ dquote ++ "b" ++ dquote ++ "]}".

Definition example_data : JSValue :=
  JObject [("result", JString "ok");
           ("duration_seconds", JNumber (NInt 12));
           ("agents_used", JArray [JString "a"; JString "b"])].

(** A success body without [agents_used], and a body that is not JSON. *)
Definition body_without_agents : string :=
  "{" ++ dquote ++ "result" ++ dquote ++ ":" ++ dquote ++ "ok" ++ dquote ++ ","
    ++ dquote ++ "duration_seconds" ++ dquote ++ ":12}".

Definition body_empty_agents : string :=
  "{" ++ dquote ++ "result" ++ dquote ++ ":" ++ dquote ++ "ok" ++ dquote ++ ","
    ++ dquote ++ "duration_seconds" ++ dquote ++ ":12,"
    ++ dquote ++ "agents_used" ++ dquote ++ ":[]}".

Definition body_not_json : string := "<html>Bad Gateway</html>".

(** * manage.sh

    The helper script of the stack: it reads its first argument as a
    command and runs one [docker] command for it.  The script runs under
    [set -euo pipefail]: a command that exits with a status other than 0 ends
    the script with that status.  The embedding keeps what the script reads
    (its arguments, [$0], two variables of the environment and the exit
    status of the command it runs) and what it does (the commands it runs
    and the lines it writes), in order.  It is the script as bash 4.4 and
    later run it, where an empty [$@] is no unset variable.  An [echo] whose
    line cannot be written (standard output is closed or full) fails with
    status 1, and under [set -e] ends the script like any other command. *)
Module Manage.

(** The environment of a run: [$0], the two variables the script expands,
    the exit status of each external command, by the words it is run with,
    and whether a line can be written on standard output. *)
Record Env : Type := {
  script : string;
  ALLM_PORT : option string;
  OLLAMA_PORT : option string;
  status_of : list string -> N;
  echo_ok : string -> bool
}.

(** What a run does: [Exec argv] runs an external command with these words,
    [Echo line] runs [echo] with this line, which reaches standard output
    when it can be written, and [Complain parameter word] is the message of
    [${parameter:?word}] on standard error, which bash writes after the name
    of the script and the line number. *)
Inductive Effect : Type :=
| Exec (argv : list string)
| Echo (line : string)
| Complain (parameter word : string).

(** A step of the script goes on with a value, or ends the script with an
    exit status. *)
Inductive Step (A : Type) : Type :=
| Next (a : A)
| Exit (status : N).
Arguments Next {A} a.
Arguments Exit {A} status.

Definition Sh (A : Type) : Type := (Step A * list Effect)%type.

Definition and_then {A B} (m : Sh A) (k : A -> Sh B) : Sh B :=
  match m with
  | (Next a, t) => let (r, t') := k a in (r, (t ++ t')%list)
  | (Exit status, t) => (Exit status, t)
  end.

Declare Scope sh_scope.
Delimit Scope sh_scope with sh.
Notation "x <- m ;; k" := (and_then m (fun x => k))
  (at level 61, m at next level, right associativity) : sh_scope.
Notation "m ;; k" := (and_then m (fun _ => k))
  (at level 61, right associativity) : sh_scope.

(** [${v:-d}]: [d] when [v] is unset or empty. *)
Definition or_default (v : option string) (d : string) : string :=
  match v with
  | Some EmptyString => d
  | Some s => s
  | None => d
  end.

(** [$1], unset when there is no argument. *)
Definition first (args : list string) : option string :=
  match args with
  | a :: _ => Some a
  | [] => None
  end.

(** [shift || true]: the arguments without the first, none when there is
    none. *)
Definition shift (args : list string) : list string :=
  match args with
  | _ :: rest => rest
  | [] => []
  end.

(** [${1:?word}]: the first argument, or, when it is unset or empty, the
    word on standard error and the end of the script with status 1. *)
Definition required_first (args : list string) (word : string) : Sh string :=
  match first args with
  | Some EmptyString => (Exit 1%N, [Complain "1" word])
  | Some a => (Next a, [])
  | None => (Exit 1%N, [Complain "1" word])
  end.

(** An external command under [set -e]. *)
Definition exec (env : Env) (argv : list string) : Sh unit :=
  (if (status_of env argv =? 0)%N then Next tt else Exit (status_of env argv),
   [Exec argv]).

(** [echo line] under [set -e]. *)
Definition echo (env : Env) (line : string) : Sh unit :=
  (if echo_ok env line then Next tt else Exit 1%N, [Echo line]).

Definition exit (status : N) : Sh unit := (Exit status, []).

(** The end of the script: its status is the one of the last command, which
    is 0 when the end is reached under [set -e]. *)
Definition finish (m : Sh unit) : N * list Effect :=
  match m with
  | (Next _, t) => (0%N, t)
  | (Exit status, t) => (status, t)
  end.

Local Open Scope sh_scope.

(** Lines 13-47. *)
Definition manage (env : Env) (argv : list string) : N * list Effect :=
  let CMD := or_default (first argv) "help" in
  let args := shift argv in
  finish
    (if String.eqb CMD "up" then
       exec env (["docker"; "compose"; "up"; "-d"] ++ args)%list ;;
       echo env "✅ Stack is running." ;;
       echo env ("   AnythingLLM → http://localhost:" ++ or_default (ALLM_PORT env) "3001") ;;
       echo env ("   Ollama API  → http://localhost:" ++ or_default (OLLAMA_PORT env) "11434")
     else if String.eqb CMD "down" then
       exec env (["docker"; "compose"; "down"] ++ args)%list
     else if String.eqb CMD "logs" then
       exec env (["docker"; "compose"; "logs"; "-f"] ++ args)%list
     else if String.eqb CMD "create" then
       NAME <- required_first args ("Usage: " ++ script env ++ " create <model-name>") ;;
       let FILE := "/modelfiles/" ++ NAME ++ ".Modelfile" in
       echo env ("⏳ Creating model '" ++ NAME ++ "' from " ++ FILE ++ " …") ;;
       exec env ["docker"; "exec"; "ollama"; "ollama"; "create"; NAME; "-f"; FILE] ;;
       echo env ("✅ Model '" ++ NAME ++ "' is ready.  Use it in AnythingLLM or via API.")
     else if String.eqb CMD "list" then
       exec env ["docker"; "exec"; "ollama"; "ollama"; "list"]
     else if String.eqb CMD "pull" then
       MODEL <- required_first args ("Usage: " ++ script env ++ " pull <model>") ;;
       exec env ["docker"; "exec"; "ollama"; "ollama"; "pull"; MODEL]
     else
       echo env ("Usage: " ++ script env ++ " {up|down|logs|create|list|pull}") ;;
       exit 1).

(** The external commands of a run, and the lines it writes. *)
Fixpoint commands (t : list Effect) : list (list string) :=
  match t with
  | [] => []
  | Exec argv :: rest => argv :: commands rest
  | _ :: rest => commands rest
  end.

Fixpoint lines (t : list Effect) : list string :=
  match t with
  | [] => []
  | Echo line :: rest => line :: lines rest
  | _ :: rest => lines rest
  end.

(** The commands of the [case] statement. *)
Definition known : list string := ["up"; "down"; "logs"; "create"; "list"; "pull"].

End Manage.

(** Callbacks and bodies for more concrete runs. *)
Module Fixtures.

Definition sink_error : Error := mkError "Error" "sink closed".

(** A host whose callback throws on one message and returns on the others. *)
Definition throwing_on (m : string) (e : Error) : This :=
  {| runtimeArgs := None;
     introspect := fun msg => if String.eqb msg m then Some e else None |}.

Definition body_agents_string : string :=
  "{" ++ dquote ++ "result" ++ dquote ++ ":" ++ dquote ++ "ok" ++ dquote ++ ","
    ++ dquote ++ "duration_seconds" ++ dquote ++ ":12,"
    ++ dquote ++ "agents_used" ++ dquote ++ ":" ++ dquote ++ "a, b" ++ dquote ++ "}".

Definition body_without_result : string :=
  "{" ++ dquote ++ "duration_seconds" ++ dquote ++ ":12,"
    ++ dquote ++ "agents_used" ++ dquote ++ ":[" ++ dquote ++ "a" ++ dquote ++ "]}".

Definition body_without_duration : string :=
  "{" ++ dquote ++ "result" ++ dquote ++ ":" ++ dquote ++ "ok" ++ dquote ++ ","
    ++ dquote ++ "agents_used" ++ dquote ++ ":["
    ++ dquote ++ "a" ++ dquote ++ "," ++ dquote ++ "b" ++ dquote ++ "]}".

(** An environment of [manage.sh] in which every command succeeds, one in
    which every command exits with status 125, and one in which the commands
    succeed and nothing can be written on standard output. *)
Definition docker_up : Manage.Env :=
  {| Manage.script := "./manage.sh";
     Manage.ALLM_PORT := None;
     Manage.OLLAMA_PORT := Some "11500";
     Manage.status_of := fun _ => 0%N;
     Manage.echo_ok := fun _ => true |}.

Definition docker_down : Manage.Env :=
  {| Manage.script := "./manage.sh";
     Manage.ALLM_PORT := None;
     Manage.OLLAMA_PORT := None;
     Manage.status_of := fun _ => 125%N;
     Manage.echo_ok := fun _ => true |}.


End Fixtures.

(** * Facts *)

(** ** Strings *)

Lemma append_assoc (a b c : string) : (a ++ b) ++ c = a ++ b ++ c.
Proof.
  induction a as [| x a IH]; cbn.
  - reflexivity.
  - now rewrite IH.
Qed.

Lemma append_empty_r (a : string) : a ++ EmptyString = a.
Proof.
  induction a as [| x a IH]; cbn.
  - reflexivity.
  - now rewrite IH.
Qed.

Lemma Contains_refl (s : string) : Contains s s.
Proof. exists EmptyString, EmptyString. cbn. now rewrite append_empty_r. Qed.

Lemma Contains_head (s post : string) : Contains s (s ++ post).
Proof. exists EmptyString, post. reflexivity. Qed.

Lemma Contains_append_l (s t u : string) : Contains s t -> Contains s (u ++ t).
Proof.
  intros (pre & post & ->). exists (u ++ pre), post. now rewrite append_assoc.
Qed.

Ltac occurs :=
  first [ apply Contains_head
        | apply Contains_refl
        | apply Contains_append_l; occurs ].

Lemma sending_contains_topic (topic depth : string) :
  Contains topic (msg_sending topic depth).
Proof. unfold msg_sending. occurs. Qed.

Lemma sending_contains_depth (topic depth : string) :
  Contains depth (msg_sending topic depth).
Proof. unfold msg_sending. occurs. Qed.

Lemma returned_error_contains_status (status : N) :
  Contains (N_toString status) (msg_returned_error status).
Proof. unfold msg_returned_error. occurs. Qed.

Lemma research_failed_contains_status (status : N) (errBody : string) :
  Contains (N_toString status) (msg_research_failed status errBody).
Proof. unfold msg_research_failed. occurs. Qed.

Lemma research_failed_contains_body (status : N) (errBody : string) :
  Contains errBody (msg_research_failed status errBody).
Proof. unfold msg_research_failed. occurs. Qed.

Lemma complete_contains_duration (duration agents : string) :
  Contains duration (msg_complete duration agents).
Proof. unfold msg_complete. occurs. Qed.

Lemma complete_contains_agents (duration agents : string) :
  Contains agents (msg_complete duration agents).
Proof. unfold msg_complete. occurs. Qed.

Lemma error_contacting_contains_baseUrl (baseUrl message : string) :
  Contains baseUrl (msg_error_contacting baseUrl message).
Proof. unfold msg_error_contacting. occurs. Qed.

Lemma error_contacting_contains_message (baseUrl message : string) :
  Contains message (msg_error_contacting baseUrl message).
Proof. unfold msg_error_contacting. occurs. Qed.

Lemma error_contacting_contains_hint (baseUrl message : string) :
  Contains remediation_hint (msg_error_contacting baseUrl message).
Proof. unfold msg_error_contacting. occurs. Qed.

(** ** The language *)

Section LanguageFacts.

Variable rt : Runtime.

(** [Array.prototype.toString] is [join(",")]. *)
Lemma ToString_array (elems : list JSValue) :
  ToString rt (JArray elems) = Array_join rt "," elems.
Proof.
  cbn [ToString].
  induction elems as [| x rest IH]; [ reflexivity | ].
  cbn [Array_join]. unfold element_string. rewrite <- IH. reflexivity.
Qed.

Lemma join_empty (sep : string) : call_join rt (JArray []) sep = Normal EmptyString.
Proof. reflexivity. Qed.

(** A property can be read off everything but [undefined] and [null]; when
    one property can be read, every property can. *)
Lemma Get_defined (data : JSValue) (p q : string) (x : JSValue) :
  Get rt data p = Normal x -> Get rt data q = Normal (field data q).
Proof. destruct data; cbn; intros E; try discriminate E; reflexivity. Qed.

(** [x.join] is callable on arrays only. *)
Lemma call_join_array (v : JSValue) (sep s : string) :
  call_join rt v sep = Normal s -> exists elems, v = JArray elems.
Proof.
  destruct v; cbn; intros E; try discriminate E. now exists elems.
Qed.

(** Reading [agents_used] off a body that has no such property and calling
    [join] on the result throws. *)
Lemma join_of_missing (data : JSValue) :
  own_property data "agents_used" = None ->
  exists e, and_then (Get rt data "agents_used") (fun a => call_join rt a ", ") = Throw e.
Proof.
  intros missing. destruct data; cbn in *; try (eexists; reflexivity).
  rewrite missing. cbn. eexists; reflexivity.
Qed.

End LanguageFacts.

(** ** One invocation *)

Section HandlerFacts.

Variable rt : Runtime.
Variable fetch : Request -> Completion Response.

Ltac run :=
  cbv [handler respond bind try_catch lift ret text json await_fetch call_introspect
       and_then fst snd app negb].

(** With a callback that returns, an invocation is the notification of line
    11, the request, and then either the notification and the value of the
    [try] block or, when an exception left it, those of the [catch] block. *)
Lemma handler_run (this : This) (topic : string) :
  never_throws this ->
  handler rt fetch this topic =
    let req := research_request rt (baseUrl this) topic (depth this) in
    match respond rt (fetch req) with
    | Normal (note, v) =>
        (Normal v,
         [Introspect (msg_sending topic (depth this)); Fetch req; Introspect note])
    | Throw e =>
        (Normal (returned (baseUrl this) (TransportError (message e))),
         [Introspect (msg_sending topic (depth this)); Fetch req;
          Introspect (msg_failed_to_reach (message e))])
    end.
Proof.
  intros quiet. unfold handler, respond, returned. cbv zeta.
  run. rewrite !quiet. run.
  destruct (fetch _) as [response | e]; run; rewrite ?quiet; [ | reflexivity ].
  destruct (ok response); run.
  - destruct (body_text response) as [t | e]; run; rewrite ?quiet; [ | reflexivity ].
    destruct (JSON_parse rt t) as [data | e]; run; rewrite ?quiet; [ | reflexivity ].
    destruct (Get rt data "duration_seconds") as [d | e] eqn:Ed;
      run; rewrite ?quiet; [ | reflexivity ].
    destruct (ToString rt d) as [ds | e]; run; rewrite ?quiet; [ | reflexivity ].
    destruct (Get rt data "agents_used") as [a | e]; run; rewrite ?quiet; [ | reflexivity ].
    destruct (call_join rt a ", ") as [js | e]; run; rewrite ?quiet; [ | reflexivity ].
    rewrite (Get_defined rt _ _ "result" _ Ed); run; rewrite ?quiet; reflexivity.
  - destruct (body_text response) as [t | e]; run; rewrite ?quiet; reflexivity.
Qed.

(** The proviso on the callback is needed: when it throws on every message,
    the exception of line 11 is caught, the one of line 36 is not, and no
    request is made. *)
Lemma throwing_callback_propagates (this : This) (topic : string) (e : Error) :
  (forall msg, introspect this msg = Some e) ->
  handler rt fetch this topic =
    (Throw e,
     [Introspect (msg_sending topic (depth this));
      Introspect (msg_failed_to_reach (message e))]).
Proof.
  intros throws. unfold handler. cbv zeta. run. rewrite !throws. reflexivity.
Qed.

(** The trace of such an invocation has three events. *)
Lemma trace_shape (this : This) (topic : string) :
  never_throws this ->
  exists note,
    trace rt fetch this topic =
      [Introspect (msg_sending topic (depth this));
       Fetch (research_request rt (baseUrl this) topic (depth this));
       Introspect note].
Proof.
  intros quiet. unfold trace. rewrite (handler_run _ _ quiet). cbv zeta.
  destruct (respond rt _) as [[note v] | e]; eexists; reflexivity.
Qed.

(** The request was rejected: the [catch] block answers. *)
Lemma run_rejected (this : This) (topic : string) (e : Error) :
  never_throws this ->
  fetch (research_request rt (baseUrl this) topic (depth this)) = Throw e ->
  handler rt fetch this topic =
    (Normal (returned (baseUrl this) (TransportError (message e))),
     [Introspect (msg_sending topic (depth this));
      Fetch (research_request rt (baseUrl this) topic (depth this));
      Introspect (msg_failed_to_reach (message e))]).
Proof.
  intros quiet rejected. rewrite (handler_run _ _ quiet). cbv zeta.
  rewrite rejected. reflexivity.
Qed.

(** The body could not be read, whatever the status. *)
Lemma run_body_rejected (this : This) (topic : string) (response : Response) (e : Error) :
  never_throws this ->
  fetch (research_request rt (baseUrl this) topic (depth this)) = Normal response ->
  body_text response = Throw e ->
  handler rt fetch this topic =
    (Normal (returned (baseUrl this) (TransportError (message e))),
     [Introspect (msg_sending topic (depth this));
      Fetch (research_request rt (baseUrl this) topic (depth this));
      Introspect (msg_failed_to_reach (message e))]).
Proof.
  intros quiet resolved unread. rewrite (handler_run _ _ quiet). cbv zeta.
  rewrite resolved. unfold respond, and_then. rewrite unread.
  destruct (negb (ok response)); reflexivity.
Qed.

(** A status outside 200-299 with a body that was read. *)
Lemma run_not_ok (this : This) (topic : string) (response : Response) (errBody : string) :
  never_throws this ->
  fetch (research_request rt (baseUrl this) topic (depth this)) = Normal response ->
  ok response = false ->
  body_text response = Normal errBody ->
  handler rt fetch this topic =
    (Normal (returned (baseUrl this) (RemoteError (status response) errBody)),
     [Introspect (msg_sending topic (depth this));
      Fetch (research_request rt (baseUrl this) topic (depth this));
      Introspect (msg_returned_error (status response))]).
Proof.
  intros quiet resolved failed read. rewrite (handler_run _ _ quiet). cbv zeta.
  rewrite resolved. unfold respond, and_then. rewrite failed, read. reflexivity.
Qed.

(** A status in 200-299 with a body that is not JSON. *)
Lemma run_malformed (this : This) (topic : string) (response : Response)
    (t : string) (e : Error) :
  never_throws this ->
  fetch (research_request rt (baseUrl this) topic (depth this)) = Normal response ->
  ok response = true ->
  body_text response = Normal t ->
  JSON_parse rt t = Throw e ->
  handler rt fetch this topic =
    (Normal (returned (baseUrl this) (TransportError (message e))),
     [Introspect (msg_sending topic (depth this));
      Fetch (research_request rt (baseUrl this) topic (depth this));
      Introspect (msg_failed_to_reach (message e))]).
Proof.
  intros quiet resolved success read malformed. rewrite (handler_run _ _ quiet). cbv zeta.
  rewrite resolved. unfold respond, and_then. rewrite success, read, malformed.
  reflexivity.
Qed.

(** A status in 200-299 with a JSON body whose [duration_seconds] converts
    to a string and whose [agents_used] is an array that [join] accepts. *)
Lemma run_success (this : This) (topic : string) (response : Response)
    (t : string) (data : JSValue) (elems : list JSValue) (duration agents : string) :
  never_throws this ->
  fetch (research_request rt (baseUrl this) topic (depth this)) = Normal response ->
  ok response = true ->
  body_text response = Normal t ->
  JSON_parse rt t = Normal data ->
  own_property data "agents_used" = Some (JArray elems) ->
  ToString rt (field data "duration_seconds") = Normal duration ->
  Array_join rt ", " elems = Normal agents ->
  handler rt fetch this topic =
    (Normal (returned (baseUrl this) (Success (field data "result"))),
     [Introspect (msg_sending topic (depth this));
      Fetch (research_request rt (baseUrl this) topic (depth this));
      Introspect (msg_complete duration agents)]).
Proof.
  intros quiet resolved success read parsed present converts joined.
  rewrite (handler_run _ _ quiet). cbv zeta.
  rewrite resolved. unfold respond, and_then. rewrite success, read, parsed.
  destruct data; try discriminate present.
  unfold returned, field, own_property in *.
  cbn [negb Get]. rewrite converts, present. cbn [call_join]. rewrite joined.
  reflexivity.
Qed.

(** A status in 200-299 with a JSON body that has no [agents_used]. *)
Lemma run_missing_agents (this : This) (topic : string) (response : Response)
    (t : string) (data : JSValue) :
  never_throws this ->
  fetch (research_request rt (baseUrl this) topic (depth this)) = Normal response ->
  ok response = true ->
  body_text response = Normal t ->
  JSON_parse rt t = Normal data ->
  own_property data "agents_used" = None ->
  exists e,
    handler rt fetch this topic =
      (Normal (returned (baseUrl this) (TransportError (message e))),
       [Introspect (msg_sending topic (depth this));
        Fetch (research_request rt (baseUrl this) topic (depth this));
        Introspect (msg_failed_to_reach (message e))]).
Proof.
  intros quiet resolved success read parsed missing.
  rewrite (handler_run _ _ quiet). cbv zeta.
  rewrite resolved. unfold respond. cbn [and_then]. rewrite success, read. cbn [negb and_then].
  rewrite parsed. cbn [and_then].
  destruct (join_of_missing rt data missing) as [e thrown].
  destruct (Get rt data "duration_seconds") as [d | e1]; cbn [and_then];
    [ | eexists; reflexivity ].
  destruct (ToString rt d) as [ds | e2]; cbn [and_then]; [ | eexists; reflexivity ].
  destruct (Get rt data "agents_used") as [a | e3]; cbn [and_then] in *;
    [ | eexists; reflexivity ].
  rewrite thrown. eexists; reflexivity.
Qed.

(** ** The claims of the specification *)

Lemma bind_head {A B : Type} (m : M A) (k : A -> M B) (ev : Event) (rest : list Event) :
  snd m = ev :: rest -> exists rest', snd (bind m k) = ev :: rest'.
Proof.
  destruct m as [[a | e] t]; cbv [bind snd]; intros ->.
  - destruct (k a) as [r t']. eexists; reflexivity.
  - eexists; reflexivity.
Qed.

Lemma try_catch_head {A : Type} (m : M A) (h : Error -> M A) (ev : Event)
    (rest : list Event) :
  snd m = ev :: rest -> exists rest', snd (try_catch m h) = ev :: rest'.
Proof.
  destruct m as [[a | e] t]; cbv [try_catch snd]; intros ->.
  - eexists; reflexivity.
  - destruct (h e) as [r t']. eexists; reflexivity.
Qed.

(** The first effect of an invocation is the notification of line 11, also
    when the callback throws on it. *)
Lemma trace_head (this : This) (topic : string) :
  exists rest,
    trace rt fetch this topic = Introspect (msg_sending topic (depth this)) :: rest.
Proof.
  unfold trace, handler. cbv zeta.
  assert (snd (call_introspect this (msg_sending topic (depth this)))
          = [Introspect (msg_sending topic (depth this))]) as first
    by (unfold call_introspect; destruct (introspect this _); reflexivity).
  match goal with
  | |- exists rest, snd (try_catch (bind ?m ?k) ?h) = _ =>
      destruct (bind_head m k _ _ first) as [rest' bound];
      exact (try_catch_head _ h _ _ bound)
  end.
Qed.

(** C8: every invocation first emits, through the introspection callback, the
    notification that announces the request; it contains the topic and the
    depth, and it comes before the outbound request in the trace. *)
Theorem announcement_precedes_request (this : This) (topic : string) :
  Contains topic (msg_sending topic (depth this)) /\
  Contains (depth this) (msg_sending topic (depth this)) /\
  (exists rest,
     trace rt fetch this topic = Introspect (msg_sending topic (depth this)) :: rest) /\
  (forall pre req post,
     trace rt fetch this topic = (pre ++ Fetch req :: post)%list ->
     In (Introspect (msg_sending topic (depth this))) pre).
Proof.
  split; [ apply sending_contains_topic | ].
  split; [ apply sending_contains_depth | ].
  split; [ apply trace_head | ].
  intros pre req post split_at.
  destruct (trace_head this topic) as [rest first]. rewrite first in split_at.
  destruct pre as [| ev pre]; cbn in split_at.
  - discriminate split_at.
  - injection split_at as <- _. now left.
Qed.

Lemma one_request_per_invocation_aux (this : This) (topic : string) :
  never_throws this ->
  requests (trace rt fetch this topic) =
    [research_request rt (baseUrl this) topic (depth this)].
Proof.
  intros quiet. destruct (trace_shape this topic quiet) as [note ->]. reflexivity.
Qed.


(** C6: when the configuration supplies no [RESEARCH_DEPTH], the [depth]
    property of the body of the request is ["medium"]. *)
Theorem omitted_depth_is_medium (this : This) (topic : string) :
  never_throws this ->
  optional_chain (runtimeArgs this) RESEARCH_DEPTH = None ->
  depth this = "medium" /\
  exists req,
    requests (trace rt fetch this topic) = [req] /\
    body req =
      JSON_stringify rt (JObject [("topic", JString topic); ("depth", JString "medium")]).
Proof.
  intros quiet omitted.
  assert (depth this = "medium") as medium by (unfold depth; now rewrite omitted).
  split; [ exact medium | ].
  exists (research_request rt (baseUrl this) topic (depth this)). split.
  - apply (one_request_per_invocation_aux this topic quiet).
  - rewrite medium. reflexivity.
Qed.

(** C1, as the code has it: with a callback that returns, no failure leaves
    the handler as an exception.  A success status with a body that is not
    JSON is caught like a network failure and answered with the description
    of the [catch] block; a rejected request is answered the same way; a
    status outside 200-299 is answered with a description string. *)
Theorem failures_are_returned (this : This) (topic : string) :
  never_throws this ->
  let req := research_request rt (baseUrl this) topic (depth this) in
  (forall response t e,
     fetch req = Normal response -> ok response = true ->
     body_text response = Normal t -> JSON_parse rt t = Throw e ->
     outcome rt fetch this topic
       = Normal (returned (baseUrl this) (TransportError (message e)))) /\
  (forall e,
     fetch req = Throw e ->
     outcome rt fetch this topic
       = Normal (returned (baseUrl this) (TransportError (message e)))) /\
  (forall response,
     fetch req = Normal response -> ok response = false ->
     (forall errBody,
        body_text response = Normal errBody ->
        outcome rt fetch this topic
          = Normal (returned (baseUrl this) (RemoteError (status response) errBody))) /\
     (forall e,
        body_text response = Throw e ->
        outcome rt fetch this topic
          = Normal (returned (baseUrl this) (TransportError (message e)))) /\
     exists description, outcome rt fetch this topic = Normal (JString description)).
Proof.
  intros quiet req. unfold outcome. repeat split.
  - intros response t e resolved success read malformed.
    now rewrite (run_malformed this topic response t e).
  - intros e rejected. now rewrite (run_rejected this topic e).
  - intros errBody read. now rewrite (run_not_ok this topic response errBody).
  - intros e unread. now rewrite (run_body_rejected this topic response e).
  - destruct (body_text response) as [errBody | e] eqn:read.
    + rewrite (run_not_ok this topic response errBody) by assumption.
      eexists; reflexivity.
    + rewrite (run_body_rejected this topic response e) by assumption.
      eexists; reflexivity.
Qed.

(** C2: a 200 response whose body is the example of the specification makes
    the handler return the string ["ok"], the [result] of the parsed body,
    after a notification that mentions [12] and ["a, b"]. *)
Theorem example_success (this : This) (topic : string) (response : Response) :
  never_throws this ->
  fetch (research_request rt (baseUrl this) topic (depth this)) = Normal response ->
  status response = 200%N ->
  body_text response = Normal example_body ->
  JSON_parse rt example_body = Normal example_data ->
  outcome rt fetch this topic = Normal (JString "ok") /\
  field example_data "result" = JString "ok" /\
  notifications (trace rt fetch this topic) =
    [msg_sending topic (depth this);
     "✅ Research complete! Took 12s using agents: a, b"] /\
  Contains "12" "✅ Research complete! Took 12s using agents: a, b" /\
  Contains "a, b" "✅ Research complete! Took 12s using agents: a, b".
Proof.
  intros quiet resolved status200 read parsed.
  assert (ok response = true) as success by (unfold ok; now rewrite status200).
  assert (handler rt fetch this topic =
            (Normal (returned (baseUrl this) (Success (field example_data "result"))),
             [Introspect (msg_sending topic (depth this));
              Fetch (research_request rt (baseUrl this) topic (depth this));
              Introspect (msg_complete "12" "a, b")])) as ran
    by (apply (run_success this topic response example_body example_data
                 [JString "a"; JString "b"]); (assumption || reflexivity)).
  unfold outcome, trace. rewrite ran. repeat split.
  - apply (complete_contains_duration "12" "a, b").
  - apply (complete_contains_agents "12" "a, b").
Qed.

(** C3: a response with status 500 and body ["boom"] is answered with the
    description of a remote error: the body is read as text, the failure
    status is notified, and the string that is returned contains ["500"] and
    ["boom"]. *)
Theorem example_remote_error (this : This) (topic : string) (response : Response) :
  never_throws this ->
  fetch (research_request rt (baseUrl this) topic (depth this)) = Normal response ->
  status response = 500%N ->
  body_text response = Normal "boom" ->
  outcome rt fetch this topic = Normal (returned (baseUrl this) (RemoteError 500 "boom")) /\
  returned (baseUrl this) (RemoteError 500 "boom")
    = JString "CrewAI research failed (HTTP 500): boom" /\
  Contains "500" "CrewAI research failed (HTTP 500): boom" /\
  Contains "boom" "CrewAI research failed (HTTP 500): boom" /\
  trace rt fetch this topic =
    [Introspect (msg_sending topic (depth this));
     Fetch (research_request rt (baseUrl this) topic (depth this));
     Introspect "❌ CrewAI returned error: 500"].
Proof.
  intros quiet resolved status500 read.
  assert (ok response = false) as failed by (unfold ok; now rewrite status500).
  unfold outcome, trace.
  rewrite (run_not_ok this topic response "boom" quiet resolved failed read).
  rewrite status500. repeat split.
  - apply (research_failed_contains_status 500 "boom").
  - apply (research_failed_contains_body 500 "boom").
Qed.

(** C4: when the request is rejected (the wait bound of 300 seconds is
    exceeded, or no connection is made), or the body can no longer be read,
    the handler returns the description of a transport error: the text
    [Error contacting CrewAI service at], the base URL in use, the message
    of the error and the hint [Make sure the crewai-service container is
    running and on the same Docker network.] *)
Theorem transport_failure_names_baseUrl (this : This) (topic : string) (e : Error) :
  never_throws this ->
  let req := research_request rt (baseUrl this) topic (depth this) in
  fetch req = Throw e \/
  (exists response, fetch req = Normal response /\ body_text response = Throw e) ->
  let description :=
    "Error contacting CrewAI service at " ++ baseUrl this ++ ": " ++ message e
      ++ ". Make sure the crewai-service container is running and on the same Docker network." in
  signal_timeout_ms req = 300000%N /\
  outcome rt fetch this topic = Normal (JString description) /\
  returned (baseUrl this) (TransportError (message e)) = JString description /\
  Contains (baseUrl this) description /\
  Contains
    "Make sure the crewai-service container is running and on the same Docker network."
    description /\
  (forall u d, u <> EmptyString ->
     runtimeArgs this = Some {| CREWAI_API_URL := Some u; RESEARCH_DEPTH := d |} ->
     baseUrl this = u).
Proof.
  intros quiet req failure description.
  assert (description = msg_error_contacting (baseUrl this) (message e)) as literal
    by reflexivity.
  split; [ reflexivity | ]. split.
  - unfold outcome. destruct failure as [rejected | (response & resolved & unread)].
    + now rewrite (run_rejected this topic e).
    + now rewrite (run_body_rejected this topic response e).
  - split; [ reflexivity | ].
    split; [ rewrite literal; apply error_contacting_contains_baseUrl | ].
    split; [ rewrite literal; apply error_contacting_contains_hint | ].
    intros u d nonempty configured. unfold baseUrl. rewrite configured. cbn.
    destruct u; [ contradiction | reflexivity ].
Qed.

(** C7, as the code has it: on a success status with a JSON body, an
    [agents_used] that is the empty array joins to the empty text and the
    handler returns the [result] of the body, provided [duration_seconds]
    converts to a string; a body without [agents_used] is not read as the
    empty sequence: the call of [join] throws, and the handler returns the
    description of the [catch] block instead of the [result]. *)
Theorem agents_used_empty_or_missing (this : This) (topic : string)
    (response : Response) (t : string) (data : JSValue) :
  never_throws this ->
  fetch (research_request rt (baseUrl this) topic (depth this)) = Normal response ->
  ok response = true ->
  body_text response = Normal t ->
  JSON_parse rt t = Normal data ->
  (forall duration,
     own_property data "agents_used" = Some (JArray []) ->
     ToString rt (field data "duration_seconds") = Normal duration ->
     outcome rt fetch this topic = Normal (field data "result") /\
     notifications (trace rt fetch this topic) =
       [msg_sending topic (depth this); msg_complete duration EmptyString]) /\
  (own_property data "agents_used" = None ->
   exists e,
     outcome rt fetch this topic
       = Normal (JString (msg_error_contacting (baseUrl this) (message e))) /\
     notifications (trace rt fetch this topic) =
       [msg_sending topic (depth this); msg_failed_to_reach (message e)]).
Proof.
  intros quiet resolved success read parsed. split.
  - intros duration empty converts. unfold outcome, trace.
    rewrite (run_success this topic response t data [] duration EmptyString);
      (assumption || (split; reflexivity) || reflexivity).
  - intros missing.
    destruct (run_missing_agents this topic response t data) as [e ran];
      try assumption.
    exists e. unfold outcome, trace. rewrite ran. split; reflexivity.
Qed.

(** The body of the handler on a string topic: with a callback that never
    throws it returns a value, whatever the network does; a success status
    with a body that is not JSON, or with a JSON body that has no
    [agents_used], gives the string of the [catch] block, which names the
    base URL. *)
Theorem handler_never_throws (this : This) (topic : string) :
  never_throws this ->
  let req := research_request rt (baseUrl this) topic (depth this) in
  (exists v, outcome rt fetch this topic = Normal v) /\
  (forall response t e,
     fetch req = Normal response -> ok response = true ->
     body_text response = Normal t -> JSON_parse rt t = Throw e ->
     outcome rt fetch this topic
       = Normal (JString (msg_error_contacting (baseUrl this) (message e)))) /\
  (forall response t data,
     fetch req = Normal response -> ok response = true ->
     body_text response = Normal t -> JSON_parse rt t = Normal data ->
     own_property data "agents_used" = None ->
     exists e,
       outcome rt fetch this topic
         = Normal (JString (msg_error_contacting (baseUrl this) (message e)))) /\
  (forall message, Contains (baseUrl this) (msg_error_contacting (baseUrl this) message)).
Proof.
  intros quiet req. unfold outcome. repeat split.
  - rewrite (handler_run this topic quiet). cbv zeta.
    destruct (respond rt _) as [[note v] | e]; eexists; reflexivity.
  - intros response t e resolved success read malformed.
    now rewrite (run_malformed this topic response t e).
  - intros response t data resolved success read parsed missing.
    destruct (run_missing_agents this topic response t data) as [e ran];
      try assumption.
    exists e. now rewrite ran.
  - intros message. apply error_contacting_contains_baseUrl.
Qed.

(** C10: a configuration value that is present and empty counts as absent:
    an empty [CREWAI_API_URL] gives the base URL
    ["http://crewai-service:8000"], an empty [RESEARCH_DEPTH] gives the depth
    ["medium"], and the invocation is the one of the configuration without
    the value. *)
Theorem empty_configuration_is_absent
    (u d : option string) (callback : string -> option Error) (topic : string) :
  let this_of args := {| runtimeArgs := Some args; introspect := callback |} in
  baseUrl (this_of {| CREWAI_API_URL := Some EmptyString; RESEARCH_DEPTH := d |})
    = "http://crewai-service:8000" /\
  depth (this_of {| CREWAI_API_URL := u; RESEARCH_DEPTH := Some EmptyString |})
    = "medium" /\
  handler rt fetch (this_of {| CREWAI_API_URL := Some EmptyString; RESEARCH_DEPTH := d |}) topic
    = handler rt fetch (this_of {| CREWAI_API_URL := None; RESEARCH_DEPTH := d |}) topic /\
  handler rt fetch (this_of {| CREWAI_API_URL := u; RESEARCH_DEPTH := Some EmptyString |}) topic
    = handler rt fetch (this_of {| CREWAI_API_URL := u; RESEARCH_DEPTH := None |}) topic /\
  url (research_request rt
         (baseUrl (this_of {| CREWAI_API_URL := Some EmptyString; RESEARCH_DEPTH := d |}))
         topic "medium")
    = "http://crewai-service:8000/research".
Proof.
  cbv zeta. repeat split.
Qed.

End HandlerFacts.

(** * The call with its argument *)

Section InvocationFacts.

Variable rt : Runtime.
Variable fetch : Request -> Completion Response.

Ltac step_call :=
  cbv [handler_of bind try_catch lift ret text json await_fetch call_introspect
       and_then fst snd app negb].

Lemma bind_lift_normal {A B : Type} (a : A) (k : A -> M B) :
  bind (lift (Normal a)) k = k a.
Proof. unfold bind, lift. destruct (k a) as [r t]. reflexivity. Qed.

(** On a string the body for any value is the handler of the claims. *)
Lemma handler_of_string (this : This) (topic : string) :
  handler_of rt fetch this (JString topic) = handler rt fetch this topic.
Proof.
  unfold handler_of, handler. cbv zeta. cbn [ToString].
  rewrite bind_lift_normal. reflexivity.
Qed.

Lemma invoke_bound (this : This) (argument topic : JSValue) :
  destructure_topic rt argument = Normal topic ->
  invoke rt fetch this argument = handler_of rt fetch this topic.
Proof. intros bound. unfold invoke. rewrite bound. apply bind_lift_normal. Qed.

Lemma destructure_defined (argument : JSValue) :
  argument <> JUndefined -> argument <> JNull ->
  destructure_topic rt argument = Normal (field argument "topic").
Proof. destruct argument; intros; try contradiction; reflexivity. Qed.

Lemma handler_of_run (this : This) (topic : JSValue) :
  never_throws this ->
  handler_of rt fetch this topic =
    match ToString rt topic with
    | Throw e =>
        (Normal (returned (baseUrl this) (TransportError (message e))),
         [Introspect (msg_failed_to_reach (message e))])
    | Normal shown =>
        let req := research_request_of rt (baseUrl this) topic (depth this) in
        match respond rt (fetch req) with
        | Normal (note, v) =>
            (Normal v,
             [Introspect (msg_sending shown (depth this)); Fetch req; Introspect note])
        | Throw e =>
            (Normal (returned (baseUrl this) (TransportError (message e))),
             [Introspect (msg_sending shown (depth this)); Fetch req;
              Introspect (msg_failed_to_reach (message e))])
        end
    end.
Proof.
  intros quiet. unfold handler_of, respond, returned. cbv zeta.
  destruct (ToString rt topic) as [shown | e]; step_call; rewrite ?quiet;
    [ | reflexivity ].
  step_call.
  destruct (fetch _) as [response | e]; step_call; rewrite ?quiet; [ | reflexivity ].
  destruct (ok response); step_call.
  - destruct (body_text response) as [t | e]; step_call; rewrite ?quiet; [ | reflexivity ].
    destruct (JSON_parse rt t) as [data | e]; step_call; rewrite ?quiet; [ | reflexivity ].
    destruct (Get rt data "duration_seconds") as [d | e] eqn:Ed;
      step_call; rewrite ?quiet; [ | reflexivity ].
    destruct (ToString rt d) as [ds | e]; step_call; rewrite ?quiet; [ | reflexivity ].
    destruct (Get rt data "agents_used") as [a | e]; step_call; rewrite ?quiet;
      [ | reflexivity ].
    destruct (call_join rt a ", ") as [js | e]; step_call; rewrite ?quiet; [ | reflexivity ].
    rewrite (Get_defined rt _ _ "result" _ Ed); step_call; rewrite ?quiet; reflexivity.
  - destruct (body_text response) as [t | e]; step_call; rewrite ?quiet; reflexivity.
Qed.

(** C9, as the code has it: the parameter pattern of line 5 is bound before
    the [try] is entered, so a call without an argument, or with [null],
    ends with its [TypeError].  With a callback that never throws and any
    other argument, every call returns a value, whatever the argument and
    whatever the network does; a success status with a body that is not
    JSON, or with a JSON body that has no [agents_used], gives the string of
    the [catch] block, which names the base URL. *)
Theorem invocation_never_throws (this : This) (argument : JSValue) :
  never_throws this ->
  let topic := field argument "topic" in
  let req := research_request_of rt (baseUrl this) topic (depth this) in
  (argument = JUndefined \/ argument = JNull ->
   invoke rt fetch this argument
     = (Throw (TypeError rt (DestructureOfNullish argument "topic")), [])) /\
  (argument <> JUndefined -> argument <> JNull ->
   (exists v, fst (invoke rt fetch this argument) = Normal v) /\
   (forall shown response t e,
      ToString rt topic = Normal shown ->
      fetch req = Normal response -> ok response = true ->
      body_text response = Normal t -> JSON_parse rt t = Throw e ->
      fst (invoke rt fetch this argument)
        = Normal (JString (msg_error_contacting (baseUrl this) (message e)))) /\
   (forall shown response t data,
      ToString rt topic = Normal shown ->
      fetch req = Normal response -> ok response = true ->
      body_text response = Normal t -> JSON_parse rt t = Normal data ->
      own_property data "agents_used" = None ->
      exists e,
        fst (invoke rt fetch this argument)
          = Normal (JString (msg_error_contacting (baseUrl this) (message e)))) /\
   (forall message, Contains (baseUrl this) (msg_error_contacting (baseUrl this) message)) /\
   (forall t,
      topic = JString t ->
      invoke rt fetch this argument = handler rt fetch this t)).
Proof.
  intros quiet topic req. split.
  { intros [-> | ->]; reflexivity. }
  intros defined nonnull.
  rewrite (invoke_bound this argument topic (destructure_defined argument defined nonnull)).
  split; [ | split; [ | split; [ | split ] ] ].
  - rewrite (handler_of_run this topic quiet). cbv zeta. fold req.
    destruct (ToString rt topic) as [shown | e]; [ | eexists; reflexivity ].
    destruct (respond rt (fetch req)) as [[note v] | e]; eexists; reflexivity.
  - intros shown response t e converts resolved success read malformed.
    rewrite (handler_of_run this topic quiet). cbv zeta. fold req.
    rewrite converts, resolved. unfold respond, and_then.
    rewrite success, read, malformed. reflexivity.
  - intros shown response t data converts resolved success read parsed missing.
    rewrite (handler_of_run this topic quiet). cbv zeta. fold req.
    rewrite converts, resolved. unfold respond. cbn [and_then]. rewrite success, read.
    cbn [negb and_then]. rewrite parsed. cbn [and_then].
    destruct (join_of_missing rt data missing) as [e thrown].
    destruct (Get rt data "duration_seconds") as [d | e1]; cbn [and_then];
      [ | eexists; reflexivity ].
    destruct (ToString rt d) as [ds | e2]; cbn [and_then]; [ | eexists; reflexivity ].
    destruct (Get rt data "agents_used") as [a | e3]; cbn [and_then] in *;
      [ | eexists; reflexivity ].
    rewrite thrown. eexists; reflexivity.
  - intros message. apply error_contacting_contains_baseUrl.
  - intros t string_topic. rewrite string_topic. apply handler_of_string.
Qed.

End InvocationFacts.

(** ** Concrete runs *)

(** C1, as the specification states it, fails: the handler is given a 200
    response whose body is not JSON; the parse failure does not leave the
    handler, which returns the string of its [catch] block. *)
Lemma malformed_success_body_is_caught :
  let rt := Reference.runtime in
  let fetch := Reference.responds 200 body_not_json in
  let this := Reference.quiet None in
  fetch (research_request rt (baseUrl this) "quantum" (depth this))
    = Normal {| status := 200; body_text := Normal body_not_json |} /\
  ok {| status := 200; body_text := Normal body_not_json |} = true /\
  JSON_parse rt body_not_json = Throw Reference.syntax_error /\
  outcome rt fetch this "quantum"
    = Normal (JString "Error contacting CrewAI service at http://crewai-service:8000: Unexpected token in JSON. Make sure the crewai-service container is running and on the same Docker network.") /\
  (forall e, outcome rt fetch this "quantum" <> Throw e).
Proof.
  cbv zeta. repeat split; try (vm_compute; reflexivity).
  intros e. vm_compute. discriminate.
Qed.

(** The same run, through the general statement: the parse failure comes back
    as the description of a transport error. *)
Lemma failures_are_returned_witness :
  outcome Reference.runtime (Reference.responds 200 body_not_json)
    (Reference.quiet None) "quantum"
  = Normal (returned "http://crewai-service:8000" (TransportError (message Reference.syntax_error))).
Proof.
  apply (proj1 (failures_are_returned Reference.runtime
                  (Reference.responds 200 body_not_json) (Reference.quiet None) "quantum"
                  (fun _ => eq_refl))
           {| status := 200; body_text := Normal body_not_json |} body_not_json);
    vm_compute; reflexivity.
Defined.

(** The example of the specification, parsed by the reference runtime. *)
Lemma example_success_witness :
  outcome Reference.runtime (Reference.responds 200 example_body)
    (Reference.quiet None) "quantum"
  = Normal (JString "ok").
Proof.
  apply (example_success Reference.runtime (Reference.responds 200 example_body)
           (Reference.quiet None) "quantum"
           {| status := 200; body_text := Normal example_body |}).
  - intros msg. reflexivity.
  - reflexivity.
  - reflexivity.
  - reflexivity.
  - vm_compute. reflexivity.
Defined.

(** A 500 response with the body [boom]. *)
Lemma example_remote_error_witness :
  outcome Reference.runtime (Reference.responds 500 "boom") (Reference.quiet None) "quantum"
  = Normal (JString "CrewAI research failed (HTTP 500): boom").
Proof.
  apply (example_remote_error Reference.runtime (Reference.responds 500 "boom")
           (Reference.quiet None) "quantum"
           {| status := 500; body_text := Normal "boom" |}).
  - intros msg. reflexivity.
  - reflexivity.
  - reflexivity.
  - reflexivity.
Defined.

(** A request that runs into its time limit. *)
Lemma transport_failure_names_baseUrl_witness :
  outcome Reference.runtime Reference.times_out (Reference.quiet None) "quantum"
  = Normal (JString "Error contacting CrewAI service at http://crewai-service:8000: The operation was aborted due to timeout. Make sure the crewai-service container is running and on the same Docker network.").
Proof.
  apply (transport_failure_names_baseUrl Reference.runtime Reference.times_out
           (Reference.quiet None) "quantum" Reference.timeout_error).
  - intros msg. reflexivity.
  - left. reflexivity.
Defined.


(** A configuration with a base URL and no depth. *)
Lemma omitted_depth_is_medium_witness :
  depth (Reference.quiet (Some {| CREWAI_API_URL := Some "http://localhost:8000";
                                  RESEARCH_DEPTH := None |}))
  = "medium".
Proof.
  apply (omitted_depth_is_medium Reference.runtime Reference.unreachable
           (Reference.quiet (Some {| CREWAI_API_URL := Some "http://localhost:8000";
                                     RESEARCH_DEPTH := None |}))
           "quantum").
  - intros msg. reflexivity.
  - reflexivity.
Defined.

(** C7, as the specification states it, fails: a 200 response whose JSON
    body has a [result] and no [agents_used] does not give the [result]. *)
Lemma missing_agents_used_is_not_empty :
  let rt := Reference.runtime in
  let fetch := Reference.responds 200 body_without_agents in
  let this := Reference.quiet None in
  let data := JObject [("result", JString "ok"); ("duration_seconds", JNumber (NInt 12))] in
  ok {| status := 200; body_text := Normal body_without_agents |} = true /\
  JSON_parse rt body_without_agents = Normal data /\
  own_property data "agents_used" = None /\
  field data "result" = JString "ok" /\
  outcome rt fetch this "quantum"
    = Normal (JString "Error contacting CrewAI service at http://crewai-service:8000: Cannot read properties of undefined (reading 'join'). Make sure the crewai-service container is running and on the same Docker network.") /\
  outcome rt fetch this "quantum" <> Normal (field data "result").
Proof.
  cbv zeta. repeat split; try (vm_compute; reflexivity).
  vm_compute. discriminate.
Qed.

(** With an empty [agents_used] the [result] is returned. *)
Lemma agents_used_empty_or_missing_witness :
  outcome Reference.runtime (Reference.responds 200 body_empty_agents)
    (Reference.quiet None) "quantum"
  = Normal (JString "ok").
Proof.
  apply (proj1 (agents_used_empty_or_missing Reference.runtime
                  (Reference.responds 200 body_empty_agents) (Reference.quiet None)
                  "quantum" {| status := 200; body_text := Normal body_empty_agents |}
                  body_empty_agents
                  (JObject [("result", JString "ok");
                            ("duration_seconds", JNumber (NInt 12));
                            ("agents_used", JArray [])])
                  (fun _ => eq_refl) eq_refl eq_refl eq_refl eq_refl)
           "12");
    vm_compute; reflexivity.
Defined.

(** A body that is not JSON still ends in a returned value. *)
Lemma handler_never_throws_on_a_string :
  exists v,
    outcome Reference.runtime (Reference.responds 200 body_not_json)
      (Reference.quiet None) "quantum" = Normal v.
Proof.
  apply (handler_never_throws Reference.runtime (Reference.responds 200 body_not_json)
           (Reference.quiet None) "quantum").
  intros msg. reflexivity.
Defined.

(** C9, as it is stated, fails: a call without an argument, or with [null],
    ends with the [TypeError] of the parameter pattern of line 5, which no
    [try] encloses, although the callback never throws; nothing is notified
    and no request is made. *)
Lemma call_without_argument_throws :
  let rt := Reference.runtime in
  let fetch := Reference.responds 200 example_body in
  let this := Reference.quiet None in
  never_throws this /\
  invoke rt fetch this JUndefined =
    (Throw (mkError "TypeError"
              "Cannot destructure property 'topic' of 'undefined' as it is undefined."),
     []) /\
  invoke rt fetch this JNull =
    (Throw (mkError "TypeError"
              "Cannot destructure property 'topic' of 'null' as it is null."),
     []).
Proof.
  cbv zeta. split; [ intros msg; reflexivity | ]. split; vm_compute; reflexivity.
Qed.

(** A call with the arguments of a tool call, answered with a body that is
    not JSON. *)
Lemma invocation_never_throws_witness :
  exists v,
    fst (invoke Reference.runtime (Reference.responds 200 body_not_json)
           (Reference.quiet None) (JObject [("topic", JString "quantum")]))
    = Normal v.
Proof.
  apply (invocation_never_throws Reference.runtime (Reference.responds 200 body_not_json)
           (Reference.quiet None) (JObject [("topic", JString "quantum")])).
  - intros msg. reflexivity.
  - discriminate.
  - discriminate.
Defined.

(** * More of the handler *)

Ltac step_handler :=
  cbv [handler bind try_catch lift ret text json await_fetch call_introspect
       fst snd app negb].

Section MoreHandlerFacts.

Variable rt : Runtime.
Variable fetch : Request -> Completion Response.

(** [join] on an array of strings is the names with the separator between
    them. *)
Lemma Array_join_strings (sep : string) (names : list string) :
  Array_join rt sep (map JString names) = Normal (String.concat sep names).
Proof.
  induction names as [| x rest IH]; [ reflexivity | ].
  cbn [map Array_join element_string ToString]. rewrite IH.
  destruct rest; reflexivity.
Qed.

Lemma ok_in_range (response : Response) :
  (200 <= status response <= 299)%N -> ok response = true.
Proof.
  intros [low high]. unfold ok.
  apply andb_true_intro. split; now apply N.leb_le.
Qed.

Lemma ok_out_of_range (response : Response) :
  (status response < 200 \/ 299 < status response)%N -> ok response = false.
Proof.
  intros out. unfold ok. apply andb_false_iff.
  destruct out as [low | high]; [ left | right ]; apply N.leb_gt; assumption.
Qed.

(** X1: when the callback throws on the announcement of line 11, no request
    is made; the [catch] block notifies the failure and returns its
    description, unless the callback throws there too, and then that
    exception leaves the handler. *)
Theorem no_request_when_announcement_throws (this : This) (topic : string) (e : Error) :
  introspect this (msg_sending topic (depth this)) = Some e ->
  requests (trace rt fetch this topic) = [] /\
  notifications (trace rt fetch this topic) =
    [msg_sending topic (depth this); msg_failed_to_reach (message e)] /\
  (introspect this (msg_failed_to_reach (message e)) = None ->
   outcome rt fetch this topic
     = Normal (JString (msg_error_contacting (baseUrl this) (message e)))) /\
  (forall e',
     introspect this (msg_failed_to_reach (message e)) = Some e' ->
     outcome rt fetch this topic = Throw e').
Proof.
  intros thrown. unfold outcome, trace, handler. cbv zeta.
  step_handler. rewrite thrown.
  destruct (introspect this (msg_failed_to_reach (message e))) as [e' | ];
    cbn; repeat split; try discriminate; try reflexivity.
  now intros e'' [= ->].
Qed.

(** X2: every status outside 200-299 (1xx, 3xx, 4xx, 5xx, 0) whose body can
    be read is answered with the description of a remote error, which
    contains the status in decimal and the whole body, after a notification
    of the status. *)
Theorem remote_error_for_every_other_status (this : This) (topic : string)
    (response : Response) (errBody : string) :
  never_throws this ->
  fetch (research_request rt (baseUrl this) topic (depth this)) = Normal response ->
  (status response < 200 \/ 299 < status response)%N ->
  body_text response = Normal errBody ->
  outcome rt fetch this topic
    = Normal (JString (msg_research_failed (status response) errBody)) /\
  Contains (N_toString (status response)) (msg_research_failed (status response) errBody) /\
  Contains errBody (msg_research_failed (status response) errBody) /\
  notifications (trace rt fetch this topic) =
    [msg_sending topic (depth this); msg_returned_error (status response)].
Proof.
  intros quiet resolved out read.
  pose proof (ok_out_of_range response out) as failed.
  unfold outcome, trace.
  rewrite (run_not_ok rt fetch this topic response errBody quiet resolved failed read).
  repeat split.
  - apply research_failed_contains_status.
  - apply research_failed_contains_body.
Qed.

(** X3: on a status in 200-299 whose JSON body has a number as
    [duration_seconds] and an array of strings as [agents_used], the handler
    returns the [result] of the body, whatever value it is, after a
    notification with the number and with the names separated by a comma
    and a space. *)
Theorem success_lists_agent_names (this : This) (topic : string)
    (response : Response) (t : string) (data : JSValue) (n : Number)
    (names : list string) :
  never_throws this ->
  fetch (research_request rt (baseUrl this) topic (depth this)) = Normal response ->
  (200 <= status response <= 299)%N ->
  body_text response = Normal t ->
  JSON_parse rt t = Normal data ->
  own_property data "duration_seconds" = Some (JNumber n) ->
  own_property data "agents_used" = Some (JArray (map JString names)) ->
  outcome rt fetch this topic = Normal (field data "result") /\
  notifications (trace rt fetch this topic) =
    [msg_sending topic (depth this);
     msg_complete (Number_toString n) (String.concat ", " names)].
Proof.
  intros quiet resolved range read parsed duration agents.
  pose proof (ok_in_range response range) as success.
  unfold outcome, trace.
  rewrite (run_success rt fetch this topic response t data (map JString names)
             (Number_toString n) (String.concat ", " names));
    try assumption.
  - split; reflexivity.
  - unfold field. rewrite duration. reflexivity.
  - apply Array_join_strings.
Qed.

(** X4: a success body without [result] is no error: when the rest of the
    body is usable the handler emits the success notification and returns
    [undefined]. *)
Theorem missing_result_returns_undefined (this : This) (topic : string)
    (response : Response) (t : string) (data : JSValue) (elems : list JSValue)
    (duration agents : string) :
  never_throws this ->
  fetch (research_request rt (baseUrl this) topic (depth this)) = Normal response ->
  ok response = true ->
  body_text response = Normal t ->
  JSON_parse rt t = Normal data ->
  own_property data "result" = None ->
  own_property data "agents_used" = Some (JArray elems) ->
  ToString rt (field data "duration_seconds") = Normal duration ->
  Array_join rt ", " elems = Normal agents ->
  outcome rt fetch this topic = Normal JUndefined /\
  notifications (trace rt fetch this topic) =
    [msg_sending topic (depth this); msg_complete duration agents].
Proof.
  intros quiet resolved success read parsed missing present converts joined.
  unfold outcome, trace.
  rewrite (run_success rt fetch this topic response t data elems duration agents);
    try assumption.
  unfold field. rewrite missing. split; reflexivity.
Qed.

(** X5: a success body without [duration_seconds] is no error either: the
    notification reads [undefined] for the duration and the [result] is
    returned. *)
Theorem missing_duration_reads_undefined (this : This) (topic : string)
    (response : Response) (t : string) (data : JSValue) (elems : list JSValue)
    (agents : string) :
  never_throws this ->
  fetch (research_request rt (baseUrl this) topic (depth this)) = Normal response ->
  ok response = true ->
  body_text response = Normal t ->
  JSON_parse rt t = Normal data ->
  own_property data "duration_seconds" = None ->
  own_property data "agents_used" = Some (JArray elems) ->
  Array_join rt ", " elems = Normal agents ->
  outcome rt fetch this topic = Normal (field data "result") /\
  notifications (trace rt fetch this topic) =
    [msg_sending topic (depth this); msg_complete "undefined" agents].
Proof.
  intros quiet resolved success read parsed missing present joined.
  unfold outcome, trace.
  rewrite (run_success rt fetch this topic response t data elems "undefined" agents);
    try assumption.
  - split; reflexivity.
  - unfold field. rewrite missing. reflexivity.
Qed.

(** X6: an [agents_used] that is there and is not an array (a string, a
    number, an object, [null]) has no [join] to call: the handler returns
    the description of the [catch] block, not the [result]. *)
Theorem agents_used_must_be_an_array (this : This) (topic : string)
    (response : Response) (t : string) (data v : JSValue) :
  never_throws this ->
  fetch (research_request rt (baseUrl this) topic (depth this)) = Normal response ->
  ok response = true ->
  body_text response = Normal t ->
  JSON_parse rt t = Normal data ->
  own_property data "agents_used" = Some v ->
  (forall elems, v <> JArray elems) ->
  exists e,
    outcome rt fetch this topic
      = Normal (JString (msg_error_contacting (baseUrl this) (message e))) /\
    notifications (trace rt fetch this topic) =
      [msg_sending topic (depth this); msg_failed_to_reach (message e)].
Proof.
  intros quiet resolved success read parsed present other.
  unfold outcome, trace. rewrite (handler_run rt fetch this topic quiet). cbv zeta.
  rewrite resolved. unfold respond. cbn [and_then]. rewrite success, read.
  cbn [negb and_then]. rewrite parsed. cbn [and_then].
  destruct data; try discriminate present. cbn [own_property] in present.
  cbn [Get and_then]. rewrite present.
  destruct (ToString rt _) as [duration | e]; cbn [and_then];
    [ | eexists; split; reflexivity ].
  destruct v; cbn [call_join and_then]; try (eexists; split; reflexivity).
  now destruct (other elems).
Qed.

(** X7: when the research succeeded and the callback throws on the success
    notification of line 30, the result is lost: the exception is caught
    and, the callback returning on the failure notification, the handler
    returns the description of the [catch] block.  The request was made
    once. *)
Theorem throwing_on_success_loses_result (this : This) (topic : string)
    (response : Response) (t : string) (data : JSValue) (elems : list JSValue)
    (duration agents : string) (e : Error) :
  introspect this (msg_sending topic (depth this)) = None ->
  fetch (research_request rt (baseUrl this) topic (depth this)) = Normal response ->
  ok response = true ->
  body_text response = Normal t ->
  JSON_parse rt t = Normal data ->
  own_property data "agents_used" = Some (JArray elems) ->
  ToString rt (field data "duration_seconds") = Normal duration ->
  Array_join rt ", " elems = Normal agents ->
  introspect this (msg_complete duration agents) = Some e ->
  introspect this (msg_failed_to_reach (message e)) = None ->
  outcome rt fetch this topic
    = Normal (JString (msg_error_contacting (baseUrl this) (message e))) /\
  trace rt fetch this topic =
    [Introspect (msg_sending topic (depth this));
     Fetch (research_request rt (baseUrl this) topic (depth this));
     Introspect (msg_complete duration agents);
     Introspect (msg_failed_to_reach (message e))].
Proof.
  intros announced resolved success read parsed present converts joined thrown notified.
  unfold outcome, trace, handler. cbv zeta. step_handler.
  rewrite announced, resolved, success. step_handler. rewrite read, parsed.
  destruct data; try discriminate present.
  unfold field, own_property in *. cbn [Get]. rewrite converts, present.
  cbn [call_join]. rewrite joined, thrown, notified. split; reflexivity.
Qed.

(** X8: configuration values that are set and not empty are used as they
    are: the request goes to the configured base URL followed by
    [/research], nothing is trimmed or added, and carries the configured
    depth. *)
Theorem configured_values_are_forwarded (this : This) (topic u d : string) :
  never_throws this ->
  u <> EmptyString ->
  d <> EmptyString ->
  runtimeArgs this = Some {| CREWAI_API_URL := Some u; RESEARCH_DEPTH := Some d |} ->
  exists req,
    requests (trace rt fetch this topic) = [req] /\
    url req = u ++ "/research" /\
    body req =
      JSON_stringify rt (JObject [("topic", JString topic); ("depth", JString d)]).
Proof.
  intros quiet url_set depth_set configured.
  exists (research_request rt (baseUrl this) topic (depth this)).
  split; [ apply (one_request_per_invocation_aux rt fetch this topic quiet) | ].
  unfold baseUrl, depth. rewrite configured. cbn.
  destruct u; [ contradiction | ]. destruct d; [ contradiction | ].
  split; reflexivity.
Qed.


End MoreHandlerFacts.

(** ** Concrete runs of the handler *)

Lemma no_request_when_announcement_throws_witness :
  requests (trace Reference.runtime (Reference.responds 200 example_body)
              (Fixtures.throwing_on (msg_sending "quantum" "medium") Fixtures.sink_error)
              "quantum")
  = [].
Proof.
  apply (no_request_when_announcement_throws Reference.runtime
           (Reference.responds 200 example_body)
           (Fixtures.throwing_on (msg_sending "quantum" "medium") Fixtures.sink_error)
           "quantum" Fixtures.sink_error).
  vm_compute. reflexivity.
Defined.

Lemma remote_error_for_every_other_status_witness :
  outcome Reference.runtime (Reference.responds 404 "not found") (Reference.quiet None)
    "quantum"
  = Normal (JString "CrewAI research failed (HTTP 404): not found").
Proof.
  apply (remote_error_for_every_other_status Reference.runtime
           (Reference.responds 404 "not found") (Reference.quiet None) "quantum"
           {| status := 404; body_text := Normal "not found" |} "not found").
  - intros msg. reflexivity.
  - reflexivity.
  - right. reflexivity.
  - reflexivity.
Defined.

Lemma success_lists_agent_names_witness :
  notifications (trace Reference.runtime (Reference.responds 200 example_body)
                   (Reference.quiet None) "quantum")
  = [msg_sending "quantum" "medium"; "✅ Research complete! Took 12s using agents: a, b"].
Proof.
  apply (success_lists_agent_names Reference.runtime (Reference.responds 200 example_body)
           (Reference.quiet None) "quantum"
           {| status := 200; body_text := Normal example_body |} example_body example_data
           (NInt 12) ["a"; "b"]).
  - intros msg. reflexivity.
  - reflexivity.
  - cbn. lia.
  - reflexivity.
  - vm_compute. reflexivity.
  - reflexivity.
  - reflexivity.
Defined.

Lemma missing_result_returns_undefined_witness :
  outcome Reference.runtime (Reference.responds 200 Fixtures.body_without_result)
    (Reference.quiet None) "quantum"
  = Normal JUndefined.
Proof.
  apply (missing_result_returns_undefined Reference.runtime
           (Reference.responds 200 Fixtures.body_without_result) (Reference.quiet None)
           "quantum" {| status := 200; body_text := Normal Fixtures.body_without_result |}
           Fixtures.body_without_result
           (JObject [("duration_seconds", JNumber (NInt 12));
                     ("agents_used", JArray [JString "a"])])
           [JString "a"] "12" "a").
  - intros msg. reflexivity.
  - reflexivity.
  - reflexivity.
  - reflexivity.
  - vm_compute. reflexivity.
  - reflexivity.
  - reflexivity.
  - reflexivity.
  - reflexivity.
Defined.

Lemma missing_duration_reads_undefined_witness :
  notifications (trace Reference.runtime (Reference.responds 200 Fixtures.body_without_duration)
                   (Reference.quiet None) "quantum")
  = [msg_sending "quantum" "medium";
     "✅ Research complete! Took undefineds using agents: a, b"].
Proof.
  apply (missing_duration_reads_undefined Reference.runtime
           (Reference.responds 200 Fixtures.body_without_duration) (Reference.quiet None)
           "quantum" {| status := 200; body_text := Normal Fixtures.body_without_duration |}
           Fixtures.body_without_duration
           (JObject [("result", JString "ok");
                     ("agents_used", JArray [JString "a"; JString "b"])])
           [JString "a"; JString "b"] "a, b").
  - intros msg. reflexivity.
  - reflexivity.
  - reflexivity.
  - reflexivity.
  - vm_compute. reflexivity.
  - reflexivity.
  - reflexivity.
  - reflexivity.
Defined.

Lemma agents_used_must_be_an_array_witness :
  exists e,
    outcome Reference.runtime (Reference.responds 200 Fixtures.body_agents_string)
      (Reference.quiet None) "quantum"
    = Normal (JString (msg_error_contacting "http://crewai-service:8000" (message e))) /\
    notifications (trace Reference.runtime (Reference.responds 200 Fixtures.body_agents_string)
                     (Reference.quiet None) "quantum")
    = [msg_sending "quantum" "medium"; msg_failed_to_reach (message e)].
Proof.
  apply (agents_used_must_be_an_array Reference.runtime
           (Reference.responds 200 Fixtures.body_agents_string) (Reference.quiet None)
           "quantum" {| status := 200; body_text := Normal Fixtures.body_agents_string |}
           Fixtures.body_agents_string
           (JObject [("result", JString "ok");
                     ("duration_seconds", JNumber (NInt 12));
                     ("agents_used", JString "a, b")])
           (JString "a, b")).
  - intros msg. reflexivity.
  - reflexivity.
  - reflexivity.
  - reflexivity.
  - vm_compute. reflexivity.
  - reflexivity.
  - intros elems. discriminate.
Defined.

Lemma throwing_on_success_loses_result_witness :
  outcome Reference.runtime (Reference.responds 200 example_body)
    (Fixtures.throwing_on (msg_complete "12" "a, b") Fixtures.sink_error) "quantum"
  = Normal (JString (msg_error_contacting "http://crewai-service:8000" "sink closed")).
Proof.
  apply (throwing_on_success_loses_result Reference.runtime
           (Reference.responds 200 example_body)
           (Fixtures.throwing_on (msg_complete "12" "a, b") Fixtures.sink_error) "quantum"
           {| status := 200; body_text := Normal example_body |} example_body example_data
           [JString "a"; JString "b"] "12" "a, b" Fixtures.sink_error);
    vm_compute; reflexivity.
Defined.

Lemma configured_values_are_forwarded_witness :
  exists req,
    requests (trace Reference.runtime Reference.unreachable
                (Reference.quiet (Some {| CREWAI_API_URL := Some "http://localhost:8000/";
                                          RESEARCH_DEPTH := Some "deep" |}))
                "quantum") = [req] /\
    url req = "http://localhost:8000//research" /\
    body req =
      JSON_stringify Reference.runtime
        (JObject [("topic", JString "quantum"); ("depth", JString "deep")]).
Proof.
  apply (configured_values_are_forwarded Reference.runtime Reference.unreachable
           (Reference.quiet (Some {| CREWAI_API_URL := Some "http://localhost:8000/";
                                     RESEARCH_DEPTH := Some "deep" |}))
           "quantum" "http://localhost:8000/" "deep").
  - intros msg. reflexivity.
  - discriminate.
  - discriminate.
  - reflexivity.
Defined.


(** * manage.sh: facts *)

Ltac sh :=
  cbv [Manage.and_then Manage.exec Manage.echo Manage.exit Manage.finish
       Manage.required_first Manage.first Manage.shift Manage.commands Manage.lines
       fst snd app length].

Ltac sh_cases :=
  repeat (sh;
          match goal with
          | |- context [if ?b then _ else _] => destruct b eqn:?
          | |- context [match ?l with [] => _ | _ :: _ => _ end] => destruct l
          | |- context [match ?s with EmptyString => _ | String _ _ => _ end] => destruct s
          end);
  sh.

(** X10: a first argument that is none of the six commands, also a missing
    or an empty one and [help], gets the usage line and the exit status 1;
    no command is run. *)
Theorem unknown_command_prints_usage (env : Manage.Env) (argv : list string) :
  ~ In (Manage.or_default (Manage.first argv) "help") Manage.known ->
  Manage.manage env argv =
    (1%N, [Manage.Echo ("Usage: " ++ Manage.script env ++ " {up|down|logs|create|list|pull}")]).
Proof.
  unfold Manage.manage, Manage.known. cbv zeta.
  generalize (Manage.or_default (Manage.first argv) "help") as c. intros c unknown.
  repeat match goal with
         | |- context [if String.eqb c ?k then _ else _] =>
             destruct (String.eqb_spec c k) as [-> | _];
             [ exfalso; apply unknown; cbn [In]; tauto | ]
         end.
  sh. destruct (Manage.echo_ok env _); reflexivity.
Qed.

(** X11: whatever its arguments and its environment, a run of the script
    runs at most one external command, and that command is [docker]. *)
Theorem at_most_one_docker_command (env : Manage.Env) (argv : list string) :
  (length (Manage.commands (snd (Manage.manage env argv))) <= 1)%nat /\
  (forall cmd,
     In cmd (Manage.commands (snd (Manage.manage env argv))) ->
     exists rest, cmd = "docker" :: rest).
Proof.
  unfold Manage.manage. cbv zeta.
  generalize (Manage.or_default (Manage.first argv) "help") as c.
  generalize (Manage.shift argv) as args. intros args c.
  sh_cases.
  all: split; [ lia | ].
  all: cbn [In]; intros cmd H; repeat destruct H as [H | H];
    try contradiction; subst; eexists; reflexivity.
Qed.



(** X14: [create] and [pull] without a name, or with an empty one, run no
    command and write no line: the usage of the command goes to standard
    error and the exit status is 1. *)
Theorem missing_name_runs_nothing
    (env : Manage.Env) (command : string) (rest : list string) :
  command = "create" \/ command = "pull" ->
  exists usage,
    Manage.manage env [command] = (1%N, [Manage.Complain "1" usage]) /\
    Manage.manage env (command :: EmptyString :: rest) = (1%N, [Manage.Complain "1" usage]) /\
    Contains (Manage.script env) usage /\
    Contains command usage.
Proof.
  intros [-> | ->].
  - exists ("Usage: " ++ Manage.script env ++ " create <model-name>").
    split; [ reflexivity | ]. split; [ reflexivity | ]. split; [ occurs | ].
    exists ("Usage: " ++ Manage.script env ++ " "), " <model-name>".
    rewrite !append_assoc. reflexivity.
  - exists ("Usage: " ++ Manage.script env ++ " pull <model>").
    split; [ reflexivity | ]. split; [ reflexivity | ]. split; [ occurs | ].
    exists ("Usage: " ++ Manage.script env ++ " "), " <model>".
    rewrite !append_assoc. reflexivity.
Qed.


(** X16: [down], [logs], [list] and [pull] with a model only delegate: the
    script runs the one [docker] command, writes nothing itself and exits
    with the status of the command. *)
Theorem delegating_commands (env : Manage.Env) (model : string) (rest : list string) :
  model <> EmptyString ->
  let delegates argv cmd :=
    Manage.manage env argv = (Manage.status_of env cmd, [Manage.Exec cmd]) in
  delegates ("down" :: rest) (["docker"; "compose"; "down"] ++ rest)%list /\
  delegates ("logs" :: rest) (["docker"; "compose"; "logs"; "-f"] ++ rest)%list /\
  delegates ("list" :: rest) ["docker"; "exec"; "ollama"; "ollama"; "list"] /\
  delegates ("pull" :: model :: rest) ["docker"; "exec"; "ollama"; "ollama"; "pull"; model].
Proof.
  intros given delegates. destruct model as [| a model]; [ contradiction | ].
  unfold delegates, Manage.manage. cbv zeta.
  cbn [Manage.first Manage.or_default Manage.shift].
  repeat split;
    match goal with
    | |- context [String.eqb ?c "up"] =>
        let b := eval vm_compute in (String.eqb c "up") in
        change (String.eqb c "up") with b;
        let b := eval vm_compute in (String.eqb c "down") in
        change (String.eqb c "down") with b;
        let b := eval vm_compute in (String.eqb c "logs") in
        change (String.eqb c "logs") with b;
        let b := eval vm_compute in (String.eqb c "create") in
        change (String.eqb c "create") with b;
        let b := eval vm_compute in (String.eqb c "list") in
        change (String.eqb c "list") with b;
        let b := eval vm_compute in (String.eqb c "pull") in
        change (String.eqb c "pull") with b
    end;
    cbv iota; sh;
    match goal with
    | |- context [(Manage.status_of env ?cmd =? 0)%N] =>
        destruct (Manage.status_of env cmd =? 0)%N eqn:succeeded;
        [ apply N.eqb_eq in succeeded; rewrite succeeded | ]; reflexivity
    end.
Qed.

(** X17: arguments after the ones a command reads are ignored: [list] reads
    none, [create] and [pull] read one. *)
Theorem extra_arguments_are_ignored
    (env : Manage.Env) (name : string) (rest : list string) :
  Manage.manage env ("list" :: rest) = Manage.manage env ["list"] /\
  Manage.manage env ("create" :: name :: rest) = Manage.manage env ["create"; name] /\
  Manage.manage env ("pull" :: name :: rest) = Manage.manage env ["pull"; name].
Proof.
  repeat split.
Qed.

(** ** Concrete runs of manage.sh *)

(** The script without an argument. *)
Lemma unknown_command_prints_usage_witness :
  Manage.manage Fixtures.docker_up [] =
    (1%N, [Manage.Echo "Usage: ./manage.sh {up|down|logs|create|list|pull}"]).
Proof.
  apply (unknown_command_prints_usage Fixtures.docker_up []).
  cbn. intuition discriminate.
Defined.


(** [pull] without a model. *)
Lemma missing_name_runs_nothing_witness :
  exists usage,
    Manage.manage Fixtures.docker_up ["pull"] = (1%N, [Manage.Complain "1" usage]) /\
    Manage.manage Fixtures.docker_up ["pull"; EmptyString; "llama3"]
      = (1%N, [Manage.Complain "1" usage]) /\
    Contains "./manage.sh" usage /\
    Contains "pull" usage.
Proof.
  apply (missing_name_runs_nothing Fixtures.docker_up "pull" ["llama3"]).
  right. reflexivity.
Defined.

(** The quick start of the README: [./manage.sh pull llama3]. *)
Lemma delegating_commands_witness :
  Manage.manage Fixtures.docker_up ["pull"; "llama3"] =
    (0%N, [Manage.Exec ["docker"; "exec"; "ollama"; "ollama"; "pull"; "llama3"]]).
Proof.
  apply (delegating_commands Fixtures.docker_up "llama3" []).
  discriminate.
Defined.
